(** * Probo MCP server: payload builders, error normalisation, tool results

    A shallow embedding of [proboClient.js] (the Probo API client) and of
    [server.js] (the MCP tool handlers), with the properties the
    specification states about them.

    JavaScript values are embedded as the tree type [JsValue]; property
    reads go through [get], which throws a [TypeError] on [null] and
    [undefined] as the language does, and the conversion of a value to a
    string goes through [ToString], which throws a [TypeError] on an
    object that has no primitive value.  Numbers are restricted to
    integers (printed in decimal, as [Number::toString] does for integers
    below 1e21).  A character of a string stands for one UTF-16 code unit
    below 256, so the length of a string is the number of its characters;
    other text is not represented.

    The HTTP transport and the clock are inputs: an operation takes the
    completion of its [client.get]/[client.post] call, [placeOrder] takes
    the value that [Date.now()] returns.

    The arguments of the operations are the values the schemas of the
    tools admit: where an argument is shown in a text or put in a query
    string it is a string or a number, its conversion cannot throw, and
    it is written [display].  Console logging is left out, but for the
    one log line that converts a value of the upstream's answer
    ([getProducts]), since that conversion can throw. *)

From stdpp Require Import base strings list gmap pretty.

Local Open Scope Z_scope.
Local Open Scope string_scope.

(** ** Characters that cannot be written inside a literal *)

Definition nl : string := String (Ascii.ascii_of_nat 10) "".
Definition dquote : string := String (Ascii.ascii_of_nat 34) "".
Definition backslash : string := String (Ascii.ascii_of_nat 92) "".

(** ** Values *)

#[warnings="-register-all"]
Inductive JsValue : Type :=
  | Undefined
  | Null
  | Bool (b : bool)
  | Num (n : Z)
  | Str (s : string)
  | Arr (elems : list JsValue)
  | Obj (props : list (string * JsValue))
  (* an [Error] instance seen as a value: its message and its own
     property [data] ([Undefined] when the property was never assigned) *)
  | ErrorObj (message : string) (data : JsValue).

(** The response an upstream HTTP failure carries. *)
Record HttpResponse : Type := mkResponse {
  status : Z;
  body : JsValue   (* [response.data] *)
}.

(** What a [catch] clause of this program can receive: an axios error
    ([response] when the server answered, [request] when the request was
    sent), or a plain [Error] (a [TypeError] of the runtime, or the error
    [handleApiError] builds, which has a [data] property). *)
Inductive JsError : Type :=
  | AxiosError (message : string) (response : option HttpResponse) (request : bool)
  | PlainError (message : string) (data : JsValue).

Definition error_message (e : JsError) : string :=
  match e with AxiosError m _ _ | PlainError m _ => m end.

Definition error_response (e : JsError) : option HttpResponse :=
  match e with AxiosError _ r _ => r | PlainError _ _ => None end.

Definition error_request (e : JsError) : bool :=
  match e with AxiosError _ _ q => q | PlainError _ _ => false end.

Definition error_data (e : JsError) : JsValue :=
  match e with AxiosError _ _ _ => Undefined | PlainError _ d => d end.

(** The error as the value a handler holds in its [catch] variable. *)
Definition error_value (e : JsError) : JsValue :=
  ErrorObj (error_message e) (error_data e).

(** ** Completions: a call returns a value or throws *)

Inductive completion (A : Type) : Type :=
  | Return (a : A)
  | Throw (e : JsError).
Arguments Return {A} a.
Arguments Throw {A} e.

#[global] Instance completion_ret : MRet completion := @Return.
#[global] Instance completion_bind : MBind completion := λ A B f m,
  match m with Return a => f a | Throw e => Throw e end.

(** ** Primitive operations of the language *)

Definition truthy (v : JsValue) : bool :=
  match v with
  | Undefined | Null => false
  | Bool b => b
  | Num n => negb (Z.eqb n 0)
  | Str s => negb (String.eqb s "")
  | Arr _ | Obj _ | ErrorObj _ _ => true
  end.

(** [a || b] *)
Definition js_or (a b : JsValue) : JsValue := if truthy a then a else b.

Definition isArray (v : JsValue) : bool :=
  match v with Arr _ => true | _ => false end.

Fixpoint join (sep : string) (l : list string) : string :=
  match l with
  | [] => ""
  | [x] => x
  | x :: r => x +:+ sep +:+ join sep r
  end.

(** Own properties of an object, in insertion order; the first entry of a
    key is the property. *)
Fixpoint prop_lookup (k : string) (ps : list (string * JsValue)) : option JsValue :=
  match ps with
  | [] => None
  | (k', v) :: r => if String.eqb k' k then Some v else prop_lookup k r
  end.

(** [ToPrimitive] with hint string succeeds on the value.  An object is
    converted by its [toString]: the inherited one, unless the object has
    a property [toString] of its own.  The properties of these objects
    are data, never functions, so such an object has no callable
    [toString], and [valueOf] returns the object itself: the conversion
    fails.  An array is converted by [join], which converts each element
    but [null] and [undefined]. *)
Fixpoint convertible (v : JsValue) : bool :=
  match v with
  | Arr l =>
      forallb (λ x, match x with
                    | Undefined | Null => true
                    | _ => convertible x
                    end) l
  | Obj ps =>
      match prop_lookup "toString" ps with
      | Some _ => false
      | None => true
      end
  | _ => true
  end.

(** The string a convertible value is converted to. *)
Fixpoint display (v : JsValue) : string :=
  match v with
  | Undefined => "undefined"
  | Null => "null"
  | Bool true => "true"
  | Bool false => "false"
  | Num n => pretty n
  | Str s => s
  | Arr l =>
      join "," (map (λ x, match x with
                          | Undefined | Null => ""
                          | _ => display x
                          end) l)
  | Obj _ => "[object Object]"
  | ErrorObj m _ => if String.eqb m "" then "Error" else "Error: " +:+ m
  end.

(** The error of a conversion that fails. *)
Definition TypeError_convert : JsError :=
  PlainError "Cannot convert object to primitive value" Undefined.

(** [String(v)], the conversion a template literal applies: every failure
    inside the value is the same error. *)
Definition ToString (v : JsValue) : completion string :=
  if convertible v then Return (display v) else Throw TypeError_convert.

(** The error of reading a property of [null] or [undefined]. *)
Definition TypeError_read (v : JsValue) (k : string) : JsError :=
  PlainError ("Cannot read properties of " +:+
              match v with Null => "null" | _ => "undefined" end +:+
              " (reading '" +:+ k +:+ "')") Undefined.

(** [v.k].  Besides own properties only [length] of arrays and strings is
    modelled; no other inherited property is read by this program. *)
Definition get (v : JsValue) (k : string) : completion JsValue :=
  match v with
  | Undefined | Null => Throw (TypeError_read v k)
  | Obj ps => Return (default Undefined (prop_lookup k ps))
  | Arr l => Return (if String.eqb k "length" then Num (Z.of_nat (length l)) else Undefined)
  | Str s => Return (if String.eqb k "length" then Num (Z.of_nat (String.length s)) else Undefined)
  | ErrorObj m d =>
      Return (if String.eqb k "message" then Str m
              else if String.eqb k "data" then d else Undefined)
  | Bool _ | Num _ => Return Undefined
  end.

(** [v?.k] *)
Definition get_opt (v : JsValue) (k : string) : JsValue :=
  match v with
  | Undefined | Null => Undefined
  | _ => match get v k with Return x => x | Throw _ => Undefined end
  end.

Definition nullish (v : JsValue) : bool :=
  match v with Undefined | Null => true | _ => false end.

(** The value of [v.k] where the read does not throw. *)
Definition prop (v : JsValue) (k : string) : JsValue :=
  match get v k with Return x => x | Throw _ => Undefined end.

(** The own property [k] of an object, [None] when it has none. *)
Definition own_prop (k : string) (v : JsValue) : option JsValue :=
  match v with Obj ps => prop_lookup k ps | _ => None end.

(** ** [JSON.stringify] *)

Definition hex_digit (n : N) : Ascii.ascii :=
  Ascii.ascii_of_N (if (n <? 10)%N then 48 + n else 87 + n)%N.

Definition quote_char (c : Ascii.ascii) : string :=
  let n := Ascii.N_of_ascii c in
  if (n =? 34)%N then backslash +:+ dquote
  else if (n =? 92)%N then backslash +:+ backslash
  else if (n =? 8)%N then backslash +:+ "b"
  else if (n =? 12)%N then backslash +:+ "f"
  else if (n =? 10)%N then backslash +:+ "n"
  else if (n =? 13)%N then backslash +:+ "r"
  else if (n =? 9)%N then backslash +:+ "t"
  else if (n <? 32)%N then
    backslash +:+ "u00" +:+
    String (hex_digit (n / 16)) (String (hex_digit (n mod 16)) "")
  else String c "".

Fixpoint quote_body (s : string) : string :=
  match s with
  | "" => ""
  | String c r => quote_char c +:+ quote_body r
  end.

Definition QuoteJSONString (s : string) : string :=
  dquote +:+ quote_body s +:+ dquote.

(** The text of an array or object from the texts of its members. *)
Definition wrap_members (opening closing gap indent stepback : string)
    (partial : list string) : string :=
  match partial with
  | [] => opening +:+ closing
  | _ =>
      if String.eqb gap "" then opening +:+ join "," partial +:+ closing
      else opening +:+ nl +:+ indent +:+
           join ("," +:+ nl +:+ indent) partial +:+
           nl +:+ stepback +:+ closing
  end.

Definition member_text (gap key text : string) : string :=
  QuoteJSONString key +:+ ":" +:+ (if String.eqb gap "" then "" else " ") +:+ text.

(** [SerializeJSONProperty]: [None] is the result [undefined].  An
    [Error] instance has one enumerable own property, [data], when it was
    assigned. *)
Fixpoint SerializeJSONProperty (gap indent : string) (v : JsValue) : option string :=
  match v with
  | Undefined => None
  | Null => Some "null"
  | Bool true => Some "true"
  | Bool false => Some "false"
  | Num n => Some (pretty n)
  | Str s => Some (QuoteJSONString s)
  | Arr l =>
      let inner := indent +:+ gap in
      Some (wrap_members "[" "]" gap inner indent
              (map (λ x, default "null" (SerializeJSONProperty gap inner x)) l))
  | Obj ps =>
      let inner := indent +:+ gap in
      Some (wrap_members "{" "}" gap inner indent
              (omap (λ p, match p with
                          | (k, x) => member_text gap k <$> SerializeJSONProperty gap inner x
                          end) ps))
  | ErrorObj _ d =>
      let inner := indent +:+ gap in
      Some (wrap_members "{" "}" gap inner indent
              (option_list (member_text gap "data" <$> SerializeJSONProperty gap inner d)))
  end.

(** [JSON.stringify(v)] and [JSON.stringify(v, null, 2)] *)
Definition JSON_stringify (v : JsValue) : option string :=
  SerializeJSONProperty "" "" v.
Definition JSON_stringify_2 (v : JsValue) : option string :=
  SerializeJSONProperty "  " "" v.

(** The text a template literal shows for the result of [JSON.stringify]. *)
Definition text_of (o : option string) : string := default "undefined" o.

(** ** [String.prototype.split] on a one-character separator, and [new Set] *)

Fixpoint split (sep : Ascii.ascii) (s : string) : list string :=
  match s with
  | "" => [""]
  | String c r =>
      if Ascii.eqb c sep then "" :: split sep r
      else match split sep r with
           | x :: xs => String c x :: xs
           | [] => [String c ""]
           end
  end.

(** [[...new Set(l)]]: the elements of [l] in the order of their first
    occurrence. *)
Fixpoint Set_go (seen l : list string) : list string :=
  match l with
  | [] => []
  | x :: r =>
      if bool_decide (x ∈ seen) then Set_go seen r
      else x :: Set_go (x :: seen) r
  end.

Definition Set_spread (l : list string) : list string := Set_go [] l.

Module Client.

(** * [proboClient.js] *)

(** ** [handleApiError] *)

(** [errs.forEach(err => { errorMessage += `\n- ${err}` })]: each entry
    is converted when its line is appended. *)
Fixpoint forEach_append (errs : list JsValue) (errorMessage : string) : completion string :=
  match errs with
  | [] => mret errorMessage
  | err :: errs =>
      line ← ToString err;
      forEach_append errs (errorMessage +:+ nl +:+ "- " +:+ line)
  end.

(** The loop over [errs.slice(0, 10)] and the note on the remainder. *)
Definition append_errors (errorMessage : string) (errs : list JsValue) : completion string :=
  errorMessage ← forEach_append (take 10 errs) errorMessage;
  if (10 <? length errs)%nat
  then mret (errorMessage +:+ nl +:+ "... and " +:+
             pretty (Z.of_nat (length errs) - 10)%Z +:+ " more errors")
  else mret errorMessage.

Definition handleApiError (error : JsError) (message : string) : completion JsValue :=
  let errorMessage := if String.eqb message "" then "API request failed" else message in
  match error_response error with
  | Some response =>
      let status := status response in
      let data := body response in
      let errorData := data in
      let errorMessage := errorMessage +:+ ": HTTP " +:+ pretty status in
      errorMessage ←
        (if truthy data then
           data_message ← get data "message";
           errorMessage ←
             (if truthy data_message then
                detail ← ToString data_message;
                mret (errorMessage +:+ " - " +:+ detail)
              else match data with
                   | Str s => mret (errorMessage +:+ " - " +:+ s)
                   | _ => mret (errorMessage +:+ " - " +:+ text_of (JSON_stringify data))
                   end);
           if (status =? 400)%Z then
             data_errors ← get data "errors";
             if truthy data_errors then
               let errorMessage := errorMessage +:+ nl +:+ "Validation errors:" in
               match data_errors with
               | Str s =>
                   let uniqueErrors := Set_spread (split (Ascii.ascii_of_nat 10) s) in
                   append_errors errorMessage (map Str uniqueErrors)
               | Arr l => append_errors errorMessage l
               | _ => mret errorMessage
               end
             else mret errorMessage
           else mret errorMessage
         else mret errorMessage);
      Throw (PlainError errorMessage errorData)
  | None =>
      if error_request error
      then Throw (PlainError (errorMessage +:+ ": No response received") Null)
      else Throw (PlainError (errorMessage +:+ ": " +:+ error_message error) Null)
  end.

(** ** The store of arrays

    [configureProduct] copies the array it is given and pushes onto the
    copy; arrays are therefore cells of a store, and an array value is
    the address of its cell. *)

Record ProductOption : Type := mkOption {
  code : string;
  value : JsValue   (* a string, a number or a boolean *)
}.

Definition option_value (o : ProductOption) : JsValue :=
  Obj [("code", Str (code o)); ("value", value o)].

Definition M (A : Type) : Type :=
  gmap positive (list ProductOption) → completion A * gmap positive (list ProductOption).

#[global] Instance M_ret : MRet M := λ A a σ, (Return a, σ).
#[global] Instance M_bind : MBind M := λ A B f m σ,
  match m σ with
  | (Return a, σ') => f a σ'
  | (Throw e, σ') => (Throw e, σ')
  end.

(** A new array with the given elements: [[...]] and [[...options]]. *)
Definition alloc (l : list ProductOption) : M positive := λ σ,
  let r := fresh (dom σ) in (Return r, <[r := l]> σ).

(** The elements of an array (none at an address that holds no array). *)
Definition read (r : positive) : M (list ProductOption) := λ σ,
  (Return (σ !!! r), σ).

(** [r.push(o)] *)
Definition push (r : positive) (o : ProductOption) : M () := λ σ,
  (Return (), alter (λ l, (l ++ [o])%list) r σ).

(** [l.some(pred)] *)
Definition some (pred : ProductOption → bool) (l : list ProductOption) : bool :=
  existsb pred l.

(** [obj.k = v] on the own properties of [obj] *)
Fixpoint set_prop (k : string) (v : JsValue) (ps : list (string * JsValue))
    : list (string * JsValue) :=
  match ps with
  | [] => [(k, v)]
  | (k', v') :: r =>
      if String.eqb k' k then (k', v) :: r else (k', v') :: set_prop k v r
  end.

(** ** [configureProduct]: the request body

    [options] is the address of the caller's array, or [None] when the
    argument is left out; the other arguments are [Undefined] when left
    out.  The body refers to [productOptions]; its elements are read when
    the body is built, after the last push. *)
Definition configureProduct_payload (productCode : JsValue) (options : option positive)
    (address language : JsValue) : M JsValue :=
  options ← match options with
            | Some r => mret r
            | None => alloc []
            end;
  let address := match address with Undefined => Null | _ => address end in
  let language := match language with Undefined => Str "en" | _ => language end in
  elems ← read options;
  productOptions ← alloc elems;
  elems ← read productOptions;
  let hasWidth :=
    some (λ opt, String.eqb (code opt) "width" || String.eqb (code opt) "width_mm") elems in
  elems ← read productOptions;
  let hasHeight :=
    some (λ opt, String.eqb (code opt) "height" || String.eqb (code opt) "height_mm") elems in
  _ ← (if negb hasWidth
       then push productOptions {| code := "width"; value := Num 1000 |}
       else mret ());
  _ ← (if negb hasHeight
       then push productOptions {| code := "height"; value := Num 1000 |}
       else mret ());
  elems ← read productOptions;
  let payload :=
    [("products", Arr [Obj [("code", productCode);
                            ("options", Arr (map option_value elems))]]);
     ("language", language)] in
  let payload :=
    if truthy address
    then set_prop "deliveries" (Arr [Obj [("address", address)]]) payload
    else payload in
  mret (Obj payload).

(** ** [placeOrder]: the request body

    A product of [configuration.products], as the specification types it
    (OrderProduct): [options], [files] and [uploaders] are arrays when
    present ([None] when absent), the other fields are [Undefined] when
    absent.  The schema of the tool admits any value for a product; a
    product that is not of this shape is not represented. *)
Record OrderProduct : Type := mkProduct {
  product_code : JsValue;
  product_customer_code : JsValue;
  product_options : option (list JsValue);
  product_files : option (list JsValue);
  product_uploader : JsValue;
  product_uploaders : option (list JsValue)
}.

Record Configuration : Type := mkConfiguration {
  products : option (list OrderProduct);
  language : JsValue
}.

(** [x && x.length > 0] *)
Definition present_nonempty (x : option (list JsValue)) : bool :=
  match x with
  | Some l => (0 <? length l)%nat
  | None => false
  end.

(** [!x || x.length === 0] *)
Definition absent_or_empty (x : option (list JsValue)) : bool :=
  match x with
  | Some l => (length l =? 0)%nat
  | None => true
  end.

Definition array_value (x : option (list JsValue)) : JsValue :=
  match x with Some l => Arr l | None => Undefined end.

Definition placeholder_file : JsValue :=
  Obj [("uri", Str "https://placekitten.com/800/600"); ("fill", Bool true)].

(** The function [placeOrder] maps over [configuration.products]. *)
Definition formatProduct (product : OrderProduct) : JsValue :=
  let formattedProduct :=
    [("code", js_or (product_code product) (product_customer_code product))] in
  let formattedProduct :=
    if present_nonempty (product_options product)
    then set_prop "options" (array_value (product_options product)) formattedProduct
    else formattedProduct in
  let formattedProduct :=
    if present_nonempty (product_files product)
    then set_prop "files" (array_value (product_files product)) formattedProduct
    else if absent_or_empty (product_options product)
    then set_prop "files" (Arr [placeholder_file]) formattedProduct
    else formattedProduct in
  let formattedProduct :=
    if truthy (product_uploader product)
    then set_prop "uploader" (product_uploader product) formattedProduct
    else formattedProduct in
  let formattedProduct :=
    if present_nonempty (product_uploaders product)
    then set_prop "uploaders" (array_value (product_uploaders product)) formattedProduct
    else formattedProduct in
  Obj formattedProduct.

(** [x ? { k: Array.isArray(x) ? x : [x] } : {}], the properties a
    spread adds to the object under construction. *)
Definition spread_list_field (k : string) (x : JsValue) : list (string * JsValue) :=
  if truthy x then [(k, if isArray x then x else Arr [x])] else [].

(** [PROBO_API_MODE] is the configured mode flag, [now] the value of
    [Date.now()]; an argument left out is [Undefined]. *)
Definition placeOrder_payload (PROBO_API_MODE : string) (now : Z)
    (configuration : Configuration) (address reference isTest additionalOptions : JsValue)
    : completion JsValue :=
  let isTest :=
    match isTest with
    | Undefined => Bool (String.eqb PROBO_API_MODE "test")
    | _ => isTest
    end in
  let additionalOptions :=
    match additionalOptions with Undefined => Obj [] | _ => additionalOptions end in
  company_name ← get address "address_company_name";
  first_name ← get address "address_first_name";
  last_name ← get address "address_last_name";
  street ← get address "address_street";
  house_number ← get address "address_house_number";
  addition ← get address "address_addition";
  postal_code ← get address "address_postal_code";
  city ← get address "address_city";
  country ← get address "address_country";
  phone ← get address "address_telephone_number";
  email ← get address "address_email";
  let formattedAddress :=
    Obj [("company_name", js_or company_name (Str ""));
         ("first_name", first_name);
         ("last_name", last_name);
         ("street", street);
         ("house_number", house_number);
         ("addition", js_or addition (Str ""));
         ("postal_code", postal_code);
         ("city", city);
         ("country", country);
         ("phone", js_or phone (Str ""));
         ("email", js_or email (Str ""))] in
  let formattedProducts := map formatProduct (default [] (products configuration)) in
  orderId ← get additionalOptions "orderId";
  address_email ← get address "address_email";
  contact_email ←
    (if truthy address_email then mret address_email
     else contactEmail ← get additionalOptions "contactEmail";
          mret (js_or contactEmail (Str "")));
  callbackUrl ← get additionalOptions "callbackUrl";
  errorEmails ← get additionalOptions "errorEmails";
  shippingMethodPreset ← get additionalOptions "shippingMethodPreset";
  deliveryDatePreset ← get additionalOptions "deliveryDatePreset";
  mret (Obj
    ([("order_type", Str (if truthy isTest then "test" else "production"));
      ("reference", reference);
      ("id", js_or orderId (Str ("order-" +:+ pretty now)));
      ("contact_email", contact_email)]
     ++ spread_list_field "callback_url" callbackUrl
     ++ spread_list_field "error_email_addresses" errorEmails
     ++ [("deliveries",
          Arr [Obj [("address", formattedAddress);
                    ("shipping_method_preset", js_or shippingMethodPreset (Str "cheapest"));
                    ("delivery_date_preset", js_or deliveryDatePreset (Str "cheapest"))]]);
         ("products", Arr formattedProducts)])%list).

(** ** The six operations *)

(** [try { body } catch (error) { handler }] *)
Definition try_catch {A} (body : completion A) (handler : JsError → completion A)
    : completion A :=
  match body with
  | Return a => Return a
  | Throw e => handler e
  end.

Definition lift {A} (c : completion A) : M A := λ σ, (c, σ).

Section Operations.

(** The axios instance of [createProboClient], as the completions of
    its calls, and the serialiser of [URLSearchParams]. *)
Variable client_get : string → completion HttpResponse.
Variable client_post : string → JsValue → completion HttpResponse.
Variable URLSearchParams_toString : list (string * string) → string.

(** The [catch] clause of every operation: [handleApiError] throws, so
    the [undefined] of falling off the end is never returned. *)
Definition on_error (message : string) (error : JsError) : completion JsValue :=
  _ ← handleApiError error message; mret Undefined.

(** [query] and the two options are arguments of the tool, a string and
    two numbers.  The last line of the [try] block before the [return]
    logs [`Found ${transformedData.products.length} products`]: the
    length is a value of the answer, and its conversion can throw. *)
Definition getProducts (query options : JsValue) : completion JsValue :=
  let query := match query with Undefined => Str "" | _ => query end in
  let options := match options with Undefined => Obj [] | _ => options end in
  page ← get options "page";
  per_page ← get options "per_page";
  let queryParams :=
    [("page", display (js_or page (Num 1)));
     ("per_page", display (js_or per_page (Num 20)))] in
  let queryParams :=
    if truthy query then (queryParams ++ [("search", display query)])%list
    else queryParams in
  let qs := URLSearchParams_toString queryParams in
  let url := "/products" +:+ (if String.eqb qs "" then "" else "?" +:+ qs) in
  try_catch
    (response ← client_get url;
     let responseData := body response in
     data ← get responseData "data";
     meta ← get responseData "meta";
     let transformedData :=
       Obj [("products", js_or data (Arr [])); ("meta", js_or meta (Obj []))] in
     products ← get transformedData "products";
     products_length ← get products "length";
     _ ← ToString products_length;
     mret transformedData)
    (on_error "Failed to fetch products").

(** The second request of the [catch] clause only feeds the log, inside
    a [try] block of its own that catches whatever it throws. *)
Definition configureProduct (productCode : JsValue) (options : option positive)
    (address language : JsValue) : M JsValue :=
  payload ← configureProduct_payload productCode options address language;
  lift (try_catch
          (response ← client_post "/products/configure" payload;
           mret (body response))
          (on_error "Failed to configure product")).

Definition placeOrder (PROBO_API_MODE : string) (now : Z)
    (configuration : Configuration) (address reference isTest additionalOptions : JsValue)
    : completion JsValue :=
  orderPayload ←
    placeOrder_payload PROBO_API_MODE now configuration address reference isTest
      additionalOptions;
  try_catch
    (response ← client_post "/order" orderPayload;
     mret (body response))
    (on_error "Failed to place order").

Definition getOrderStatus (orderIds : list JsValue) : completion JsValue :=
  let payload := Obj [("orders", Arr (map (λ id, Obj [("id", id)]) orderIds))] in
  try_catch
    (response ← client_post "/order/status" payload;
     mret (body response))
    (on_error "Failed to get order status").

(** [filters] are the entries of the filter object, an argument of the
    tool: its values are strings and numbers. *)
Definition getAllOrders (filters : list (string * JsValue)) : completion JsValue :=
  let queryParams := map (λ kv, (kv.1, display kv.2)) filters in
  let url := "/orders?" +:+ URLSearchParams_toString queryParams in
  try_catch
    (response ← client_get url;
     mret (body response))
    (on_error "Failed to get orders").

Definition cancelOrder (orderId : JsValue) : completion JsValue :=
  let payload := Obj [("id", orderId)] in
  try_catch
    (response ← client_post "/order/cancel" payload;
     mret (body response))
    (on_error "Failed to cancel order").

End Operations.

End Client.

Module Server.

(** * [server.js] *)

Record ContentItem : Type := mkItem {
  type : string;
  text : option string   (* [None] when [JSON.stringify] yields [undefined] *)
}.

Record ToolResult : Type := mkResult {
  content : list ContentItem;
  isError : bool
}.

Definition instanceof_Error (v : JsValue) : bool :=
  match v with ErrorObj _ _ => true | _ => false end.

(** The value of [formattedData] in [formatResult]. *)
Definition formattedData (data : JsValue) (isError : bool) : completion JsValue :=
  if isError then
    error ← get data "error";
    if truthy error && instanceof_Error error then
      error_data ← get error "data";
      if truthy error_data then
        error_message ← get error "message";
        mret (Obj [("error", error_message); ("details", error_data)])
      else mret data
    else mret data
  else mret data.

Definition formatResult (message : string) (data : JsValue) (isError : bool)
    : completion ToolResult :=
  formattedData ← formattedData data isError;
  mret {| content := [ {| type := "text"; text := Some message |};
                       {| type := "text"; text := JSON_stringify_2 formattedData |} ];
          isError := isError |}.

(** The [catch] clause of five of the handlers.  Every value thrown in
    this program is an [Error] instance, so [errorMessage] is
    [error.message]. *)
Definition report_message (error : JsError) : completion ToolResult :=
  let errorMessage := error_message error in
  formatResult ("Error: " +:+ errorMessage) (Obj [("error", Str errorMessage)]) true.

(** The [catch] clause of the [placeOrder] handler. *)
Definition report_error (error : JsError) : completion ToolResult :=
  formatResult ("Error: " +:+ error_message error) (Obj [("error", error_value error)]) true.

Definition M_try_catch {A} (body : Client.M A) (handler : JsError → Client.M A)
    : Client.M A := λ σ,
  match body σ with
  | (Return a, σ') => (Return a, σ')
  | (Throw e, σ') => handler e σ'
  end.

Section Tools.

Variable client_get : string → completion HttpResponse.
Variable client_post : string → JsValue → completion HttpResponse.
Variable URLSearchParams_toString : list (string * string) → string.
Variable PROBO_API_MODE : string.

Definition searchProducts (query language page per_page : JsValue)
    : completion ToolResult :=
  Client.try_catch
    (let options := Obj [("page", js_or page (Num 1));
                         ("per_page", js_or per_page (Num 20))] in
     result ← Client.getProducts client_get URLSearchParams_toString query options;
     products ← get result "products";
     count ← ToString (js_or (get_opt products "length") (Num 0));
     formatResult ("Found " +:+ count +:+ " products") result false)
    report_message.

(** [options || []]: an array of the caller, or a new empty one.  The
    message shows [productCode], an argument of the tool and a string. *)
Definition configureProduct (productCode : JsValue) (options : option positive)
    (address language : JsValue) : Client.M ToolResult :=
  M_try_catch
    (options ← match options with
               | Some r => mret r
               | None => Client.alloc []
               end;
     result ← Client.configureProduct client_post productCode (Some options)
                address language;
     Client.lift
       (formatResult ("Product " +:+ display productCode +:+ " configured successfully")
          result false))
    (λ error, Client.lift (report_message error)).

Definition placeOrder (now : Z) (configuration : Client.Configuration)
    (address reference isTest additionalOptions : JsValue) : completion ToolResult :=
  Client.try_catch
    (result ← Client.placeOrder client_post PROBO_API_MODE now configuration address
                reference isTest (js_or additionalOptions (Obj []));
     order ← get result "order";
     id ← ToString (js_or (get_opt order "id") (Str "ID not available"));
     formatResult ("Order placed successfully: " +:+ id) result false)
    report_error.

Definition getOrderStatus (orderIds : list JsValue) : completion ToolResult :=
  Client.try_catch
    (result ← Client.getOrderStatus client_post orderIds;
     orders ← get result "orders";
     count ← ToString (js_or (get_opt orders "length") (Num 0));
     formatResult ("Retrieved status for " +:+ count +:+ " orders") result false)
    report_message.

Definition getAllOrders (filters : option (list (string * JsValue)))
    : completion ToolResult :=
  Client.try_catch
    (result ← Client.getAllOrders client_get URLSearchParams_toString (default [] filters);
     orders ← get result "orders";
     count ← ToString (js_or (get_opt orders "length") (Num 0));
     formatResult ("Retrieved " +:+ count +:+ " orders") result false)
    report_message.

(** The message shows [orderId], an argument of the tool and a string,
    and the status of the answer. *)
Definition cancelOrder (orderId : JsValue) : completion ToolResult :=
  Client.try_catch
    (result ← Client.cancelOrder client_post orderId;
     result_status ← get result "status";
     shown ← ToString result_status;
     formatResult
       ("Order " +:+ display orderId +:+ " cancellation result: " +:+ shown)
       result false)
    report_message.

End Tools.

End Server.

Module Spec.

(** * The specification's wording, and what its examples need *)

(** ** ConfigureProduct *)

(** The options the caller supplied: the elements of the array passed,
    none when the argument is left out. *)
Definition input_options (σ : gmap positive (list Client.ProductOption))
    (options : option positive) : list Client.ProductOption :=
  match options with
  | Some r => σ !!! r
  | None => []
  end.

Definition has_code (c : string) (l : list Client.ProductOption) : Prop :=
  c ∈ map Client.code l.

#[global] Instance has_code_dec c l : Decision (has_code c l) :=
  decide (c ∈ map Client.code l).

Definition with_code (c : string) (l : list Client.ProductOption)
    : list Client.ProductOption :=
  filter (λ o, Client.code o = c) l.

(** "Starts from the caller's option list; if no option with code width
    or width_mm is present, appends width 1000; same rule for height." *)
Definition default_dimension (c c_mm : string) (l : list Client.ProductOption)
    : list Client.ProductOption :=
  if bool_decide (has_code c l ∨ has_code c_mm l) then []
  else [ Client.mkOption c (Num 1000) ].

Definition with_default_dimensions (l : list Client.ProductOption)
    : list Client.ProductOption :=
  (l ++ default_dimension "width" "width_mm" l
     ++ default_dimension "height" "height_mm" l)%list.

(** "Wraps as products: code and options, language (default en); if an
    Address is supplied, attaches deliveries." *)
Definition configure_body (productCode address language : JsValue)
    (elems : list Client.ProductOption) : JsValue :=
  let payload :=
    [("products", Arr [Obj [("code", productCode);
                            ("options", Arr (map Client.option_value elems))]]);
     ("language", match language with Undefined => Str "en" | _ => language end)] in
  Obj (if truthy (match address with Undefined => Null | _ => address end)
       then (payload ++ [("deliveries", Arr [Obj [("address", address)]])])%list
       else payload).

(** [payload.products[0].options] *)
Definition payload_options (payload : JsValue) : option JsValue :=
  match own_prop "products" payload with
  | Some (Arr [product]) => own_prop "options" product
  | _ => None
  end.

(** ** Error normaliser *)

(** The prefix of every normalised message. *)
Definition base_message (message : string) : string :=
  if bool_decide (message = "") then "API request failed" else message.

(** "Append up to the first 10, and if more exist append a count of the
    remainder." *)
Definition listing (entries : list string) : string :=
  foldr (λ entry rest, nl +:+ "- " +:+ entry +:+ rest) "" (take 10 entries) +:+
  (if bool_decide (10 < length entries)%nat
   then nl +:+ "... and " +:+ pretty (Z.of_nat (length entries - 10)) +:+ " more errors"
   else "").

(** "If the body has a message field, append it; else if the body is
    plain text, append it; else append the JSON-serialized body." *)
Definition body_detail (data : JsValue) : string :=
  if truthy (prop data "message") then display (prop data "message")
  else match data with
       | Str s => s
       | _ => text_of (JSON_stringify data)
       end.

Definition http_head (message : string) (response : HttpResponse) : string :=
  base_message message +:+ ": HTTP " +:+ pretty (status response) +:+
  (if truthy (body response) then " - " +:+ body_detail (body response) else "").

(** "If status is 400 and the body has an errors field: collect error
    strings; if errors is a newline-delimited string, split and
    de-duplicate; if it is a list, use as-is."  The field counts when it
    is truthy. *)
Definition lists_errors (response : HttpResponse) : bool :=
  truthy (body response) && bool_decide (status response = 400%Z) &&
  truthy (prop (body response) "errors").

Definition error_entries (errors : JsValue) : list string :=
  match errors with
  | Str s => Set_spread (split (Ascii.ascii_of_nat 10) s)
  | Arr l => map display l
  | _ => []
  end.

Definition validation_errors (response : HttpResponse) : string :=
  if lists_errors response
  then nl +:+ "Validation errors:" +:+
       listing (error_entries (prop (body response) "errors"))
  else "".

(** The message and the data of the error the normaliser builds. *)
Definition normalized (message : string) (error : JsError) : string * JsValue :=
  match error_response error with
  | Some response =>
      (http_head message response +:+ validation_errors response, body response)
  | None =>
      (base_message message +:+
       (if error_request error then ": No response received"
        else ": " +:+ error_message error),
       Null)
  end.

(** The entries of a list of errors that are appended. *)
Definition first_entries (errors : JsValue) : list JsValue :=
  match errors with
  | Arr l => take 10 l
  | _ => []
  end.

(** The values of a response that the normaliser shows as strings: the
    message of the body, and the first 10 entries of a list of errors
    that is listed. *)
Definition shown_values (response : HttpResponse) : list JsValue :=
  ((if truthy (body response) && truthy (prop (body response) "message")
    then [prop (body response) "message"] else [])
   ++ (if lists_errors response
       then first_entries (prop (body response) "errors")
       else []))%list.

(** The error is built when each of them has a string form: always,
    when there is no response. *)
Definition showable (error : JsError) : bool :=
  match error_response error with
  | Some response => forallb convertible (shown_values response)
  | None => true
  end.

(** What the normaliser throws: the error it builds, or the error of
    the conversion that fails. *)
Definition thrown (message : string) (error : JsError) : JsError :=
  if showable error
  then PlainError (normalized message error).1 (normalized message error).2
  else TypeError_convert.

(** ** PlaceOrder *)

(** An array argument that is absent or empty. *)
Definition none_supplied (x : option (list JsValue)) : Prop :=
  x = None ∨ x = Some [].

(** [additionalOptions.k], where an argument left out is the empty
    object. *)
Definition additional (additionalOptions : JsValue) (k : string) : JsValue :=
  prop (match additionalOptions with Undefined => Obj [] | _ => additionalOptions end) k.

(** A string or a list given for a list-valued field, against the
    field built from it: a non-empty string becomes the list of that one
    string, a list is passed on, nothing is built from an absent value or
    from the empty string. *)
Definition list_normalized (given : JsValue) (built : option JsValue) : Prop :=
  (∀ s, given = Str s → s ≠ "" → built = Some (Arr [Str s])) ∧
  (∀ l, given = Arr l → built = Some (Arr l)) ∧
  (given = Undefined → built = None) ∧
  (given = Str "" → built = None).

(** ** SearchProducts *)

(** "Reshape the upstream response into products and meta": the
    upstream's list is its field data. *)
Definition reshaped (responseData : JsValue) : JsValue :=
  Obj [("products", js_or (prop responseData "data") (Arr []));
       ("meta", js_or (prop responseData "meta") (Obj []))].

(** [transformedData.products.length], the length [getProducts] logs
    before it returns. *)
Definition products_length (responseData : JsValue) : JsValue :=
  prop (js_or (prop responseData "data") (Arr [])) "length".

(** ** Inputs of the examples *)

(** A serialiser for query parameters that need no escaping. *)
Definition plain_query (params : list (string * string)) : string :=
  join "&" (map (λ kv, kv.1 +:+ "=" +:+ kv.2) params).

Definition sample_address : JsValue :=
  Obj [("address_first_name", Str "John");
       ("address_last_name", Str "Doe");
       ("address_street", Str "Test Street");
       ("address_house_number", Str "123");
       ("address_postal_code", Str "1234AB");
       ("address_city", Str "Test City");
       ("address_country", Str "NL")].

Definition bare_product : Client.OrderProduct :=
  Client.mkProduct (Str "airtex") Undefined None None Undefined None.

Definition optioned_product : Client.OrderProduct :=
  Client.mkProduct (Str "tensioner-with-spinhook") Undefined
    (Some [Obj [("code", Str "amount"); ("value", Str "1")]]) None Undefined None.

Definition sample_configuration : Client.Configuration :=
  Client.mkConfiguration (Some [bare_product; optioned_product]) (Str "en").

(** The stub upstream of the end-to-end example of SearchProducts. *)
Definition stub_response : HttpResponse :=
  mkResponse 200 (Obj [("data", Arr [Obj [("code", Str "x")]]);
                       ("meta", Obj [("total", Num 1)])]).

Definition stub_result : JsValue :=
  Obj [("products", Arr [Obj [("code", Str "x")]]); ("meta", Obj [("total", Num 1)])].

(** An upstream that rejects the credentials. *)
Definition unauthorized : JsError :=
  AxiosError "Request failed with status code 401"
    (Some (mkResponse 401 (Obj [("message", Str "Unauthorized")]))) true.

(** ** Shapes the further properties speak of *)

(** The names of the own properties of an object, in insertion order. *)
Definition keys (v : JsValue) : list string :=
  match v with Obj ps => map fst ps | _ => [] end.

(** The tool result with the given message, the JSON text of the given
    data, and the given error flag. *)
Definition result_text (message : string) (data : JsValue) (isError : bool)
    : Server.ToolResult :=
  Server.mkResult [Server.mkItem "text" (Some message);
                   Server.mkItem "text" (JSON_stringify_2 data)] isError.

(** [data.k?.length || 0], the count a message shows. *)
Definition listed_count (data : JsValue) (k : string) : JsValue :=
  js_or (get_opt (prop data k) "length") (Num 0).

(** [data.order?.id || 'ID not available'], the id a message shows. *)
Definition order_id (data : JsValue) : JsValue :=
  js_or (get_opt (prop data "order") "id") (Str "ID not available").

(** The address of a delivery, from the address of the caller. *)
Definition formatted_address (address : JsValue) : JsValue :=
  Obj [("company_name", js_or (prop address "address_company_name") (Str ""));
       ("first_name", prop address "address_first_name");
       ("last_name", prop address "address_last_name");
       ("street", prop address "address_street");
       ("house_number", prop address "address_house_number");
       ("addition", js_or (prop address "address_addition") (Str ""));
       ("postal_code", prop address "address_postal_code");
       ("city", prop address "address_city");
       ("country", prop address "address_country");
       ("phone", js_or (prop address "address_telephone_number") (Str ""));
       ("email", js_or (prop address "address_email") (Str ""))].

(** A product with a customer code, one file and an empty list of
    uploaders. *)
Definition filed_product : Client.OrderProduct :=
  Client.mkProduct Undefined (Str "my-banner") None
    (Some [Obj [("uri", Str "https://example.com/art.pdf"); ("fill", Bool false)]])
    Undefined (Some []).

End Spec.

(** * Properties *)

Import Client Spec.

(** ** Strings, reads and the completion monad *)

Lemma string_app_assoc (a b c : string) : (a +:+ b) +:+ c = a +:+ b +:+ c.
Proof.
  induction a as [|x a IH]; [done|].
  change (String x ((a +:+ b) +:+ c) = String x (a +:+ b +:+ c)). by rewrite IH.
Qed.

Lemma string_app_nil_r (a : string) : a +:+ "" = a.
Proof.
  induction a as [|x a IH]; [done|].
  change (String x (a +:+ "") = String x a). by rewrite IH.
Qed.

Lemma eqb_decide (s t : string) : String.eqb s t = bool_decide (s = t).
Proof.
  destruct (String.eqb_spec s t);
    [by rewrite bool_decide_eq_true_2 | by rewrite bool_decide_eq_false_2].
Qed.

Lemma get_not_nullish v k : nullish v = false → get v k = Return (prop v k).
Proof. unfold prop. by destruct v. Qed.

Lemma truthy_not_nullish v : truthy v = true → nullish v = false.
Proof. by destruct v. Qed.

Lemma prop_own k v x : own_prop k v = Some x → prop v k = x.
Proof. destruct v; try done. unfold prop. cbn. by intros ->. Qed.

Ltac run_binds := cbv [mbind completion_bind mret completion_ret].

(** ** ConfigureProduct *)

Lemma some_has_code c c_mm l :
  some (λ opt, String.eqb (code opt) c || String.eqb (code opt) c_mm) l
  = bool_decide (has_code c l ∨ has_code c_mm l).
Proof.
  unfold some, has_code. induction l as [|o l IH]; cbn.
  - rewrite bool_decide_eq_false_2; [done|].
    intros [H|H]; by apply elem_of_nil in H.
  - rewrite IH, !eqb_decide.
    apply eq_true_iff_eq.
    rewrite !orb_true_iff, !bool_decide_eq_true, !elem_of_cons.
    intuition congruence.
Qed.

(** The run of the builder on a store: the body is the one the
    specification words, over the options with their defaults; the store
    gains the builder's own array (and the empty array of a left-out
    argument) and keeps every array it held. *)
Lemma configureProduct_payload_run productCode options address language σ :
  ∃ σ0 r,
    (∀ r0, r0 ∈ dom σ → σ0 !! r0 = σ !! r0) ∧ (r ∉ dom σ0) ∧
    configureProduct_payload productCode options address language σ
    = (Return (configure_body productCode address language
                 (with_default_dimensions (input_options σ options))),
       <[r := with_default_dimensions (input_options σ options)]> σ0).
Proof.
  unfold configureProduct_payload, with_default_dimensions, default_dimension.
  destruct options as [r|].
  - exists σ, (fresh (dom σ)). split; [done|]. split; [apply is_fresh|].
    unfold mbind, M_bind, mret, M_ret, read, alloc, push.
    cbn -[some lookup_total alter insert fresh].
    rewrite lookup_total_insert_eq, !some_has_code.
    do 2 case_bool_decide; cbn -[some lookup_total alter insert fresh];
      rewrite ?alter_insert_eq, ?lookup_total_insert_eq, <-?app_assoc, ?app_nil_r;
      unfold configure_body; destruct address, language; reflexivity.
  - exists (<[fresh (dom σ) := []]> σ), (fresh (dom (<[fresh (dom σ) := []]> σ))).
    split.
    { intros r0 Hr0. rewrite lookup_insert_ne; [done|].
      intros <-. by apply is_fresh in Hr0. }
    split; [apply is_fresh|].
    unfold mbind, M_bind, mret, M_ret, read, alloc, push.
    cbn -[some lookup_total alter insert fresh].
    rewrite !lookup_total_insert_eq.
    cbn -[lookup_total alter insert fresh].
    rewrite ?alter_insert_eq, ?lookup_total_insert_eq.
    unfold configure_body; destruct address, language; reflexivity.
Qed.

Lemma with_code_default_other c c' c_mm l :
  c ≠ c' → with_code c (default_dimension c' c_mm l) = [].
Proof.
  intros Hne. unfold default_dimension, with_code. case_bool_decide; [done|].
  rewrite filter_cons_False; [done|]. cbn. congruence.
Qed.

Lemma with_code_absent c l : ¬ has_code c l → with_code c l = [].
Proof.
  unfold has_code, with_code. induction l as [|o l IH]; [done|].
  intros Hn. cbn in Hn. rewrite elem_of_cons in Hn.
  rewrite filter_cons_False; [apply IH|]; intuition.
Qed.

Lemma with_code_default_dimensions_width l :
  with_code "width" (with_default_dimensions l)
  = (with_code "width" l ++ default_dimension "width" "width_mm" l)%list.
Proof.
  unfold with_default_dimensions, with_code at 1. rewrite !filter_app.
  fold (with_code "width" l).
  fold (with_code "width" (default_dimension "height" "height_mm" l)).
  rewrite (with_code_default_other "width" "height") by done.
  rewrite app_nil_r. f_equal.
  unfold default_dimension. case_bool_decide; [done|].
  by rewrite filter_cons_True.
Qed.

Lemma with_code_default_dimensions_height l :
  with_code "height" (with_default_dimensions l)
  = (with_code "height" l ++ default_dimension "height" "height_mm" l)%list.
Proof.
  unfold with_default_dimensions, with_code at 1. rewrite !filter_app.
  fold (with_code "height" l).
  fold (with_code "height" (default_dimension "width" "width_mm" l)).
  rewrite (with_code_default_other "height" "width") by done.
  cbn. f_equal.
  unfold default_dimension. case_bool_decide; [done|].
  by rewrite filter_cons_True.
Qed.

(** C1.  The body [configureProduct] builds holds the caller's options
    followed by the defaults: when the caller gave no option with code
    width or width_mm, exactly one option of the body has code width, and
    its value is 1000; likewise for height and height_mm.  When the caller
    gave an option with code width_mm (height_mm), the body has no width
    (height) option besides the caller's own. *)
Theorem configureProduct_default_dimensions productCode options address language σ :
  let input := input_options σ options in
  ∃ built payload σ',
    configureProduct_payload productCode options address language σ = (Return payload, σ') ∧
    payload_options payload = Some (Arr (map option_value built)) ∧
    input `prefix_of` built ∧
    (¬ has_code "width" input → ¬ has_code "width_mm" input →
       with_code "width" built = [mkOption "width" (Num 1000)]) ∧
    (¬ has_code "height" input → ¬ has_code "height_mm" input →
       with_code "height" built = [mkOption "height" (Num 1000)]) ∧
    (has_code "width_mm" input → with_code "width" built = with_code "width" input) ∧
    (has_code "height_mm" input → with_code "height" built = with_code "height" input).
Proof.
  intros input.
  destruct (configureProduct_payload_run productCode options address language σ)
    as (σ0 & r & _ & _ & Hrun).
  eexists (with_default_dimensions input), _, _. split; [exact Hrun|].
  split. { unfold configure_body. by destruct (truthy _). }
  split. { by eexists. }
  rewrite with_code_default_dimensions_width, with_code_default_dimensions_height.
  unfold default_dimension. repeat split.
  - intros Hw Hmm. rewrite bool_decide_eq_false_2 by tauto.
    by rewrite with_code_absent.
  - intros Hw Hmm. rewrite bool_decide_eq_false_2 by tauto.
    by rewrite with_code_absent.
  - intros Hmm. rewrite bool_decide_eq_true_2 by tauto. apply app_nil_r.
  - intros Hmm. rewrite bool_decide_eq_true_2 by tauto. apply app_nil_r.
Qed.

(** The caller passes an array with one option, amount: both defaults
    are added.  The caller passes width_mm and height_mm: none is. *)
Lemma configureProduct_default_dimensions_witness :
  (∃ built payload σ',
     configureProduct_payload (Str "airtex") (Some 1%positive) Undefined Undefined
       {[ 1%positive := [mkOption "amount" (Str "1")] ]} = (Return payload, σ') ∧
     payload_options payload = Some (Arr (map option_value built)) ∧
     with_code "width" built = [mkOption "width" (Num 1000)] ∧
     with_code "height" built = [mkOption "height" (Num 1000)]) ∧
  (∃ built payload σ',
     configureProduct_payload (Str "airtex") (Some 1%positive) Undefined Undefined
       {[ 1%positive := [mkOption "width_mm" (Num 500); mkOption "height_mm" (Num 700)] ]}
     = (Return payload, σ') ∧
     payload_options payload = Some (Arr (map option_value built)) ∧
     with_code "width" built = [] ∧
     with_code "height" built = []).
Proof.
  split.
  - destruct (configureProduct_default_dimensions (Str "airtex") (Some 1%positive)
                Undefined Undefined {[ 1%positive := [mkOption "amount" (Str "1")] ]})
      as (built & payload & σ' & Hrun & Hopts & _ & Hw & Hh & _ & _).
    exists built, payload, σ'.
    repeat split; [exact Hrun | exact Hopts | apply Hw | apply Hh];
      apply (bool_decide_eq_false_1 _); vm_compute; reflexivity.
  - destruct (configureProduct_default_dimensions (Str "airtex") (Some 1%positive)
                Undefined Undefined
                {[ 1%positive := [mkOption "width_mm" (Num 500);
                                  mkOption "height_mm" (Num 700)] ]})
      as (built & payload & σ' & Hrun & Hopts & _ & _ & _ & Hw & Hh).
    exists built, payload, σ'.
    repeat split; [exact Hrun | exact Hopts | rewrite Hw | rewrite Hh];
      first [ reflexivity | apply (bool_decide_eq_true_1 _); vm_compute; reflexivity ].
Defined.

(** C10.  [configureProduct] pushes the defaults onto its own copy: the
    array the caller passed holds after the call the elements it held
    before. *)
Theorem configureProduct_keeps_caller_options
    (client_post : string → JsValue → completion HttpResponse)
    productCode r address language σ elems :
  σ !! r = Some elems →
  (configureProduct client_post productCode (Some r) address language σ).2 !! r
  = Some elems.
Proof.
  intros Hr. unfold configureProduct.
  destruct (configureProduct_payload_run productCode (Some r) address language σ)
    as (σ0 & r' & Hσ0 & Hr' & Hrun).
  unfold mbind, M_bind. rewrite Hrun. cbn.
  assert (r ∈ dom σ) as Hdom by (apply elem_of_dom; eauto).
  rewrite lookup_insert_ne.
  - by rewrite Hσ0.
  - intros ->. apply Hr'. apply elem_of_dom. rewrite Hσ0 by done. eauto.
Qed.

Lemma configureProduct_keeps_caller_options_witness :
  (configureProduct (λ _ _, Return (mkResponse 200 (Obj []))) (Str "airtex")
     (Some 1%positive) Undefined Undefined
     {[ 1%positive := [mkOption "amount" (Str "1")] ]}).2 !! 1%positive
  = Some [mkOption "amount" (Str "1")].
Proof.
  apply configureProduct_keeps_caller_options. reflexivity.
Defined.

(** ** Error normaliser *)


Lemma Set_go_elem_of seen l x : x ∈ Set_go seen l ↔ x ∈ l ∧ x ∉ seen.
Proof.
  revert seen. induction l as [|y l IH]; intros seen; cbn.
  - rewrite elem_of_nil. tauto.
  - case_bool_decide as Hy.
    + rewrite IH, elem_of_cons. split; [tauto|]. intros [[->|?] ?]; tauto.
    + rewrite elem_of_cons, IH, !elem_of_cons.
      split.
      * intros [->|[? ?]]; tauto.
      * intros [[->|?] ?]; [tauto|]. destruct (decide (x = y)); tauto.
Qed.

Lemma Set_go_NoDup seen l : NoDup (Set_go seen l).
Proof.
  revert seen. induction l as [|y l IH]; intros seen; cbn; [constructor|].
  case_bool_decide; [apply IH|].
  constructor; [|apply IH].
  rewrite Set_go_elem_of, elem_of_cons. tauto.
Qed.

Lemma Set_go_sublist seen l : Set_go seen l `sublist_of` l.
Proof.
  revert seen. induction l as [|y l IH]; intros seen; cbn; [done|].
  case_bool_decide; [apply sublist_cons | apply sublist_skip]; apply IH.
Qed.

(** De-duplication: every entry once, none lost, order kept. *)
Lemma Set_spread_unique l :
  NoDup (Set_spread l) ∧ (∀ x, x ∈ Set_spread l ↔ x ∈ l) ∧ Set_spread l `sublist_of` l.
Proof.
  unfold Set_spread. split; [apply Set_go_NoDup|]. split; [|apply Set_go_sublist].
  intros x. rewrite Set_go_elem_of, elem_of_nil. tauto.
Qed.

(** A conversion returns the string form of a value that has one, and
    throws the one error otherwise. *)
Lemma ToString_convertible v : convertible v = true → ToString v = Return (display v).
Proof. unfold ToString. by intros ->. Qed.

Lemma ToString_inconvertible v :
  convertible v = false → ToString v = Throw TypeError_convert.
Proof. unfold ToString. by intros ->. Qed.

Lemma ToString_returns v s :
  ToString v = Return s ↔ convertible v = true ∧ s = display v.
Proof.
  unfold ToString. destruct (convertible v); split.
  - by intros [= <-].
  - by intros [_ ->].
  - done.
  - by intros [? _].
Qed.

Lemma ToString_throws v e : ToString v = Throw e → e = TypeError_convert.
Proof. unfold ToString. destruct (convertible v); [done|]. by intros [= <-]. Qed.

Lemma falsy_convertible v : truthy v = false → convertible v = true.
Proof. by destruct v. Qed.

Lemma mapM_ToString l :
  mapM ToString l
  = if forallb convertible l then Return (map display l) else Throw TypeError_convert.
Proof.
  induction l as [|v l IH]; [done|].
  cbn [mapM forallb map]. rewrite IH. unfold ToString.
  destruct (convertible v); [|done].
  by destruct (forallb convertible l).
Qed.

Lemma forallb_convertible_strings l : forallb convertible (map Str l) = true.
Proof. induction l; [done|]. by cbn. Qed.

Lemma display_strings l : map display (map Str l) = l.
Proof. induction l as [|s l IH]; [done|]. cbn. by rewrite IH. Qed.

Lemma forEach_append_run errs init :
  forEach_append errs init
  = if forallb convertible errs
    then Return (init +:+
                 foldr (λ entry rest, nl +:+ "- " +:+ entry +:+ rest) "" (map display errs))
    else Throw TypeError_convert.
Proof.
  revert init. induction errs as [|v errs IH]; intros init.
  - cbn. by rewrite string_app_nil_r.
  - cbn [forEach_append forallb map foldr]. unfold ToString.
    destruct (convertible v); [|done].
    run_binds. rewrite IH. cbn [andb].
    destruct (forallb convertible errs); [|done].
    by rewrite !string_app_assoc.
Qed.

Lemma append_errors_listing errorMessage errs :
  append_errors errorMessage errs
  = if forallb convertible (take 10 errs)
    then Return (errorMessage +:+ listing (map display errs))
    else Throw TypeError_convert.
Proof.
  unfold append_errors, listing. rewrite forEach_append_run.
  destruct (forallb convertible (take 10 errs)); [|done].
  run_binds. rewrite firstn_map, length_map.
  destruct (Nat.ltb_spec 10 (length errs)).
  - rewrite bool_decide_eq_true_2 by done.
    replace (Z.of_nat (length errs) - 10)%Z with (Z.of_nat (length errs - 10)) by lia.
    by rewrite !string_app_assoc.
  - rewrite bool_decide_eq_false_2 by lia.
    by rewrite !string_app_nil_r.
Qed.

(** The normaliser refines the specification's wording: on every failure
    it throws, and what it throws is the error with the worded message and
    data, unless a value it has to show has no string form. *)
Lemma handleApiError_normalized error message :
  handleApiError error message = Throw (thrown message error).
Proof.
  unfold handleApiError, thrown, showable, normalized, base_message.
  rewrite eqb_decide.
  destruct (error_response error) as [response|]; cbn [fst snd].
  2: { destruct (error_request error); by rewrite ?string_app_assoc. }
  unfold http_head, validation_errors, shown_values, lists_errors, base_message.
  destruct (truthy (body response)) eqn:Ht; cbn [andb].
  2: { cbn. by rewrite !string_app_nil_r. }
  rewrite !(get_not_nullish _ _ (truthy_not_nullish _ Ht)).
  run_binds.
  set (head := (_ +:+ ": HTTP " +:+ _)).
  set (msg := prop (body response) "message").
  set (errors := prop (body response) "errors").
  assert ((if truthy msg
           then match ToString msg with
                | Return detail => Return (head +:+ " - " +:+ detail)
                | Throw e => Throw e
                end
           else match body response with
                | Str s => Return (head +:+ " - " +:+ s)
                | _ => Return (head +:+ " - " +:+ text_of (JSON_stringify (body response)))
                end)
          = if forallb convertible (if truthy msg then [msg] else [])
            then Return (head +:+ " - " +:+ body_detail (body response))
            else Throw TypeError_convert) as ->.
  { unfold body_detail. fold msg. destruct (truthy msg).
    - cbn. unfold ToString. by destruct (convertible msg).
    - cbn. by destruct (body response). }
  rewrite forallb_app.
  destruct (forallb convertible (if truthy msg then [msg] else [])); [|done].
  cbn [andb]. subst head.
  destruct (Z.eqb_spec (status response) 400) as [Hs|Hs].
  2: { rewrite (bool_decide_eq_false_2 (status response = 400%Z)) by done. cbn.
       by rewrite !string_app_nil_r, !string_app_assoc. }
  rewrite (bool_decide_eq_true_2 (status response = 400%Z)) by done. cbn [andb].
  destruct (truthy errors) eqn:He.
  2: { cbn. by rewrite !string_app_nil_r, !string_app_assoc. }
  unfold first_entries, error_entries.
  destruct errors; cbn [forallb];
    rewrite ?append_errors_listing, ?firstn_map, ?forallb_convertible_strings,
      ?display_strings;
    try (destruct (forallb convertible (take 10 _)); [|done]);
    unfold listing; cbn [take length foldr];
    rewrite ?string_app_nil_r, ?string_app_assoc; try reflexivity.
Qed.

Lemma thrown_showable message error :
  showable error = true →
  thrown message error
  = PlainError (normalized message error).1 (normalized message error).2.
Proof. unfold thrown. by intros ->. Qed.

Lemma thrown_not_showable message error :
  showable error = false → thrown message error = TypeError_convert.
Proof. unfold thrown. by intros ->. Qed.

Lemma showable_no_response error : error_response error = None → showable error = true.
Proof. unfold showable. by intros ->. Qed.

(** C2, amended.  For a failure whose response has status 400 and a body
    with a truthy errors field, where the message of the body and the
    first 10 entries of a list of errors have a string form, the message
    ends with the heading and the listing of the entries: the lines of a
    string, each once and in the order of first occurrence; the elements
    of a list as they are, the first 10 of them converted to strings.  The
    listing shows the first 10 entries, and the number of the others when
    there are more. *)
Theorem handleApiError_lists_validation_errors error message response errors :
  error_response error = Some response →
  status response = 400%Z →
  own_prop "errors" (body response) = Some errors →
  truthy errors = true →
  convertible (prop (body response) "message") = true →
  forallb convertible (first_entries errors) = true →
  ∃ entries,
    handleApiError error message
    = Throw (PlainError
               (http_head message response +:+ nl +:+ "Validation errors:" +:+
                listing entries)
               (body response)) ∧
    (∀ s, errors = Str s →
       let lines := split (Ascii.ascii_of_nat 10) s in
       entries = Set_spread lines ∧
       NoDup entries ∧ (∀ e, e ∈ entries ↔ e ∈ lines) ∧ entries `sublist_of` lines) ∧
    (∀ l, errors = Arr l →
       length entries = length l ∧
       mapM ToString (take 10 l) = Return (take 10 entries)) ∧
    (∀ l, errors = Arr (map Str l) → entries = l).
Proof.
  intros Hr Hs He Ht Hm Hl. exists (error_entries errors).
  assert (truthy (body response) = true) as Hb.
  { destruct (body response); try done. }
  split.
  - rewrite handleApiError_normalized, thrown_showable.
    + unfold normalized. rewrite Hr. cbn [fst snd].
      unfold validation_errors, lists_errors.
      rewrite Hb, bool_decide_eq_true_2 by done.
      rewrite (prop_own _ _ _ He), Ht. done.
    + unfold showable, shown_values, lists_errors. rewrite Hr, Hb.
      rewrite bool_decide_eq_true_2 by done.
      rewrite (prop_own _ _ _ He), Ht. cbn [andb].
      rewrite forallb_app, Hl, andb_true_r.
      destruct (truthy (prop _ "message")); [|done]. cbn [forallb]. by rewrite Hm.
  - split; [|split].
    + intros s -> lines. split; [done|]. apply Set_spread_unique.
    + intros l ->. cbn [error_entries first_entries] in *.
      split; [apply length_map|].
      by rewrite mapM_ToString, Hl, firstn_map.
    + intros l ->. apply display_strings.
Qed.

(** The two examples of the specification: the lines a, a, b are listed
    as a and b; of twelve entries ten are listed and two counted. *)
Lemma handleApiError_lists_validation_errors_witness :
  handleApiError
    (AxiosError "Request failed with status code 400"
       (Some (mkResponse 400
                (Obj [("message", Str "bad");
                      ("errors", Str ("a" +:+ nl +:+ "a" +:+ nl +:+ "b"))])))
       true)
    "Failed to place order"
  = Throw (PlainError
             ("Failed to place order: HTTP 400 - bad" +:+ nl +:+
              "Validation errors:" +:+ nl +:+ "- a" +:+ nl +:+ "- b")
             (Obj [("message", Str "bad");
                   ("errors", Str ("a" +:+ nl +:+ "a" +:+ nl +:+ "b"))])) ∧
  handleApiError
    (AxiosError "Request failed with status code 400"
       (Some (mkResponse 400
                (Obj [("message", Str "bad");
                      ("errors", Arr (map (λ n : nat, Str ("e" +:+ pretty n)) (seq 1 12)))])))
       true)
    "Failed to place order"
  = Throw (PlainError
             ("Failed to place order: HTTP 400 - bad" +:+ nl +:+
              "Validation errors:" +:+
              nl +:+ "- e1" +:+ nl +:+ "- e2" +:+ nl +:+ "- e3" +:+ nl +:+ "- e4" +:+
              nl +:+ "- e5" +:+ nl +:+ "- e6" +:+ nl +:+ "- e7" +:+ nl +:+ "- e8" +:+
              nl +:+ "- e9" +:+ nl +:+ "- e10" +:+ nl +:+ "... and 2 more errors")
             (Obj [("message", Str "bad");
                   ("errors", Arr (map (λ n : nat, Str ("e" +:+ pretty n)) (seq 1 12)))])).
Proof.
  split.
  - destruct (handleApiError_lists_validation_errors
                (AxiosError "Request failed with status code 400"
                   (Some (mkResponse 400
                            (Obj [("message", Str "bad");
                                  ("errors", Str ("a" +:+ nl +:+ "a" +:+ nl +:+ "b"))])))
                   true)
                "Failed to place order" _ _ eq_refl eq_refl eq_refl eq_refl eq_refl eq_refl)
      as (entries & Hrun & Hstr & _).
    destruct (Hstr _ eq_refl) as [-> _]. exact Hrun.
  - destruct (handleApiError_lists_validation_errors
                (AxiosError "Request failed with status code 400"
                   (Some (mkResponse 400
                            (Obj [("message", Str "bad");
                                  ("errors",
                                   Arr (map (λ n : nat, Str ("e" +:+ pretty n)) (seq 1 12)))])))
                   true)
                "Failed to place order" _ _ eq_refl eq_refl eq_refl eq_refl eq_refl eq_refl)
      as (entries & Hrun & _ & _ & Harr).
    rewrite (Harr (map (λ n : nat, "e" +:+ pretty n) (seq 1 12)) eq_refl) in Hrun.
    exact Hrun.
Defined.

(** C2 as stated fails where the errors field is the empty string: the
    field is present, its only line is the empty one, and the message has
    neither the heading nor the line. *)
Lemma handleApiError_empty_errors_not_listed :
  own_prop "errors" (Obj [("message", Str "bad"); ("errors", Str "")]) = Some (Str "") ∧
  handleApiError
    (AxiosError "Request failed with status code 400"
       (Some (mkResponse 400 (Obj [("message", Str "bad"); ("errors", Str "")]))) true)
    "Failed to place order"
  = Throw (PlainError "Failed to place order: HTTP 400 - bad"
             (Obj [("message", Str "bad"); ("errors", Str "")])) ∧
  "Failed to place order: HTTP 400 - bad"
  ≠ "Failed to place order: HTTP 400 - bad" +:+ nl +:+ "Validation errors:" +:+
    listing (Set_spread (split (Ascii.ascii_of_nat 10) "")).
Proof.
  split; [reflexivity|]. split; [reflexivity|]. by vm_compute.
Qed.

(** C3, amended.  On every failure and every prefix the normaliser
    throws, itself; it never returns to its caller.  It throws the error
    it builds, with the normalised message and data (the body of the
    response, or null), whenever each value it has to show has a string
    form, which is always so when there is no response; otherwise it
    throws the error of the conversion that fails. *)
Theorem handleApiError_always_throws error message :
  (∀ v, handleApiError error message ≠ Return v) ∧
  (showable error = true →
   handleApiError error message
   = Throw (PlainError (normalized message error).1 (normalized message error).2)) ∧
  (showable error = false → handleApiError error message = Throw TypeError_convert) ∧
  (error_response error = None → showable error = true) ∧
  (normalized message error).2
  = match error_response error with
    | Some response => body response
    | None => Null
    end.
Proof.
  rewrite handleApiError_normalized. split; [done|].
  split; [intros H; by rewrite thrown_showable|].
  split; [intros H; by rewrite thrown_not_showable|].
  split; [apply showable_no_response|].
  unfold normalized. by destruct (error_response error).
Qed.

(** A rejection with a message, and one whose message is an object with
    a field toString: no string can be made of it. *)
Lemma handleApiError_always_throws_witness :
  handleApiError unauthorized "Failed to fetch products"
  = Throw (PlainError "Failed to fetch products: HTTP 401 - Unauthorized"
             (Obj [("message", Str "Unauthorized")])) ∧
  handleApiError
    (AxiosError "Request failed with status code 500"
       (Some (mkResponse 500 (Obj [("message", Obj [("toString", Num 1)])]))) true)
    "Failed to fetch products"
  = Throw (PlainError "Cannot convert object to primitive value" Undefined).
Proof.
  split.
  - exact (proj1 (proj2 (handleApiError_always_throws unauthorized
                           "Failed to fetch products")) eq_refl).
  - exact (proj1 (proj2 (proj2 (handleApiError_always_throws
                                  (AxiosError "Request failed with status code 500"
                                     (Some (mkResponse 500
                                              (Obj [("message", Obj [("toString", Num 1)])])))
                                     true)
                                  "Failed to fetch products"))) eq_refl).
Defined.

(** C3 as stated fails on a request that got no response: the normaliser
    throws, and returns nothing. *)
Lemma handleApiError_throws_on_no_response :
  handleApiError (AxiosError "timeout of 1000ms exceeded" None true)
    "Failed to fetch products"
  = Throw (PlainError "Failed to fetch products: No response received" Null) ∧
  ¬ ∃ v, handleApiError (AxiosError "timeout of 1000ms exceeded" None true)
           "Failed to fetch products" = Return v.
Proof.
  split; [reflexivity|]. by intros [v Hv].
Qed.
(** ** PlaceOrder *)

Lemma additional_get opts k :
  opts ≠ Null →
  get (match opts with Undefined => Obj [] | _ => opts end) k = Return (additional opts k).
Proof. intros H. unfold additional. apply get_not_nullish. by destruct opts. Qed.

(** The builder returns whenever the address and the additional options
    can be read, and the body has this shape. *)
Lemma placeOrder_payload_returns mode now cfg address reference isTest opts :
  nullish address = false → opts ≠ Null →
  ∃ contact_email deliveries,
    placeOrder_payload mode now cfg address reference isTest opts
    = Return (Obj
        ([("order_type",
           Str (if truthy (match isTest with
                           | Undefined => Bool (String.eqb mode "test")
                           | _ => isTest
                           end) then "test" else "production"));
          ("reference", reference);
          ("id", js_or (additional opts "orderId") (Str ("order-" +:+ pretty now)));
          ("contact_email", contact_email)]
         ++ spread_list_field "callback_url" (additional opts "callbackUrl")
         ++ spread_list_field "error_email_addresses" (additional opts "errorEmails")
         ++ [("deliveries", deliveries);
             ("products", Arr (map formatProduct (default [] (products cfg))))])%list).
Proof.
  intros Ha Ho. unfold placeOrder_payload.
  rewrite !(get_not_nullish address) by done.
  rewrite !additional_get by done.
  run_binds.
  destruct (truthy (prop address "address_email")); eexists _, _; reflexivity.
Qed.

Lemma formatProduct_files product :
  own_prop "files" (formatProduct product)
  = if present_nonempty (product_files product)
    then Some (array_value (product_files product))
    else if absent_or_empty (product_options product)
    then Some (Arr [placeholder_file])
    else None.
Proof.
  unfold formatProduct.
  destruct product as [c cc [[|o os]|] [[|f fs]|] u [[|w ws]|]]; cbn;
    destruct (truthy u); reflexivity.
Qed.

Lemma Forall2_map_intro {A B} (f : A → B) (R : A → B → Prop) l :
  (∀ x, R x (f x)) → Forall2 R l (map f l).
Proof. intros H. induction l; cbn; constructor; auto. Qed.

(** C5.  Each product of the order is built into one entry of the
    body, in order.  The entry of a product with no options and no files
    has as its files exactly the one placeholder reference (a uri and the
    fill flag); the entry of a product with at least one option and no
    files has no files. *)
Theorem placeOrder_placeholder_file mode now cfg address reference isTest opts :
  nullish address = false → opts ≠ Null →
  ∃ payload entries,
    placeOrder_payload mode now cfg address reference isTest opts = Return payload ∧
    own_prop "products" payload = Some (Arr entries) ∧
    Forall2 (λ product entry,
               (none_supplied (product_options product) →
                none_supplied (product_files product) →
                own_prop "files" entry = Some (Arr [placeholder_file])) ∧
               (∀ o os, product_options product = Some (o :: os) →
                none_supplied (product_files product) →
                own_prop "files" entry = None))
      (default [] (products cfg)) entries.
Proof.
  intros Ha Ho.
  destruct (placeOrder_payload_returns mode now cfg address reference isTest opts Ha Ho)
    as (contact_email & deliveries & Hrun).
  eexists _, _. split; [exact Hrun|]. clear Hrun. split.
  { unfold own_prop, spread_list_field.
    destruct (truthy (additional opts "callbackUrl"));
      destruct (truthy (additional opts "errorEmails")); reflexivity. }
  apply Forall2_map_intro. intros product. rewrite formatProduct_files. split.
  - intros [Hopt|Hopt] [Hf|Hf]; by rewrite Hopt, Hf.
  - intros o os Hopt [Hf|Hf]; by rewrite Hopt, Hf.
Qed.

Lemma placeOrder_placeholder_file_witness :
  ∃ payload bare optioned,
    placeOrder_payload "test" 1700000000000 sample_configuration sample_address
      (Str "MCP Test Order") (Bool true) (Obj []) = Return payload ∧
    own_prop "products" payload = Some (Arr [bare; optioned]) ∧
    own_prop "files" bare = Some (Arr [placeholder_file]) ∧
    own_prop "files" optioned = None.
Proof.
  destruct (placeOrder_placeholder_file "test" 1700000000000 sample_configuration
              sample_address (Str "MCP Test Order") (Bool true) (Obj [])
              eq_refl ltac:(discriminate))
    as (payload & entries & Hrun & Hprod & Hall).
  cbn in Hall.
  apply Forall2_cons_inv_l in Hall as (bare & rest & [Hbare _] & Hall & ->).
  apply Forall2_cons_inv_l in Hall as (optioned & rest' & [_ Hopt] & Hall & ->).
  apply Forall2_nil_inv_l in Hall as ->.
  exists payload, bare, optioned.
  split; [exact Hrun|]. split; [exact Hprod|]. split.
  - apply Hbare; by left.
  - eapply Hopt; [reflexivity | by left].
Defined.

(** C6, amended.  In the body of an order, callback_url comes from
    callbackUrl and error_email_addresses from errorEmails: a non-empty
    bare string gives the list of that one string, a list is passed on
    unchanged, and the field is left out when the option is absent or is
    the empty string. *)
Theorem placeOrder_list_fields mode now cfg address reference isTest opts :
  nullish address = false → opts ≠ Null →
  ∃ payload,
    placeOrder_payload mode now cfg address reference isTest opts = Return payload ∧
    list_normalized (additional opts "callbackUrl") (own_prop "callback_url" payload) ∧
    list_normalized (additional opts "errorEmails")
      (own_prop "error_email_addresses" payload).
Proof.
  intros Ha Ho.
  destruct (placeOrder_payload_returns mode now cfg address reference isTest opts Ha Ho)
    as (contact_email & deliveries & Hrun).
  eexists. split; [exact Hrun|]. clear Hrun.
  assert (∀ s : string, s ≠ "" → truthy (Str s) = true) as Hne.
  { intros s Hs. cbn. rewrite eqb_decide. by rewrite bool_decide_eq_false_2. }
  unfold list_normalized, own_prop, spread_list_field. split; repeat split.
  - intros s -> Hs. rewrite (Hne s Hs). reflexivity.
  - intros l ->. reflexivity.
  - intros ->. cbn. by destruct (truthy _).
  - intros ->. cbn. by destruct (truthy _).
  - intros s -> Hs. rewrite (Hne s Hs). cbn. by destruct (truthy _).
  - intros l ->. cbn. by destruct (truthy _).
  - intros ->. cbn. by destruct (truthy _).
  - intros ->. cbn. by destruct (truthy _).
Qed.

Lemma placeOrder_list_fields_witness :
  ∃ payload,
    placeOrder_payload "test" 1700000000000 sample_configuration sample_address
      (Str "MCP Test Order") (Bool true)
      (Obj [("callbackUrl", Str "https://example.com/hook");
            ("errorEmails", Arr [Str "a@example.com"; Str "b@example.com"])])
    = Return payload ∧
    own_prop "callback_url" payload = Some (Arr [Str "https://example.com/hook"]) ∧
    own_prop "error_email_addresses" payload
    = Some (Arr [Str "a@example.com"; Str "b@example.com"]).
Proof.
  destruct (placeOrder_list_fields "test" 1700000000000 sample_configuration
              sample_address (Str "MCP Test Order") (Bool true)
              (Obj [("callbackUrl", Str "https://example.com/hook");
                    ("errorEmails", Arr [Str "a@example.com"; Str "b@example.com"])])
              eq_refl ltac:(discriminate))
    as (payload & Hrun & (Hstring & _) & (_ & Hlist & _)).
  exists payload. split; [exact Hrun|]. split.
  - apply Hstring; [reflexivity | discriminate].
  - apply Hlist. reflexivity.
Defined.

(** C6 as stated fails on the empty string: callbackUrl is a bare
    string, and the body has no callback_url where the claim has the list
    of that string. *)
Lemma placeOrder_empty_callbackUrl_omitted :
  ∃ payload,
    placeOrder_payload "test" 1700000000000 sample_configuration sample_address
      (Str "MCP Test Order") (Bool true) (Obj [("callbackUrl", Str "")])
    = Return payload ∧
    additional (Obj [("callbackUrl", Str "")]) "callbackUrl" = Str "" ∧
    own_prop "callback_url" payload = None ∧
    own_prop "callback_url" payload ≠ Some (Arr [Str ""]).
Proof.
  eexists. split; [reflexivity|]. split; [reflexivity|]. split; [reflexivity|].
  discriminate.
Qed.

(** C7.  The order_type of the body is test exactly when isTest is
    true; when isTest is left out, exactly when the configured mode is
    test.  It is production otherwise. *)
Theorem placeOrder_order_type mode now cfg address reference isTest opts :
  nullish address = false → opts ≠ Null →
  ∃ payload,
    placeOrder_payload mode now cfg address reference isTest opts = Return payload ∧
    (∀ b, isTest = Bool b →
       (own_prop "order_type" payload = Some (Str "test") ↔ b = true)) ∧
    (isTest = Undefined →
       (own_prop "order_type" payload = Some (Str "test") ↔ mode = "test")) ∧
    (own_prop "order_type" payload = Some (Str "test") ∨
     own_prop "order_type" payload = Some (Str "production")).
Proof.
  intros Ha Ho.
  destruct (placeOrder_payload_returns mode now cfg address reference isTest opts Ha Ho)
    as (contact_email & deliveries & Hrun).
  eexists. split; [exact Hrun|]. clear Hrun. cbn. split; [|split].
  - intros b ->. cbn. destruct b; split; congruence.
  - intros ->. cbn. rewrite eqb_decide. case_bool_decide; split; congruence.
  - destruct (truthy _); auto.
Qed.

Lemma placeOrder_order_type_witness :
  (∃ payload,
     placeOrder_payload "production" 1700000000000 sample_configuration sample_address
       (Str "MCP Test Order") (Bool true) (Obj []) = Return payload ∧
     own_prop "order_type" payload = Some (Str "test")) ∧
  (∃ payload,
     placeOrder_payload "test" 1700000000000 sample_configuration sample_address
       (Str "MCP Test Order") Undefined (Obj []) = Return payload ∧
     own_prop "order_type" payload = Some (Str "test")).
Proof.
  split.
  - destruct (placeOrder_order_type "production" 1700000000000 sample_configuration
                sample_address (Str "MCP Test Order") (Bool true) (Obj [])
                eq_refl ltac:(discriminate))
      as (payload & Hrun & Hbool & _ & _).
    exists payload. split; [exact Hrun|]. by apply (Hbool true).
  - destruct (placeOrder_order_type "test" 1700000000000 sample_configuration
                sample_address (Str "MCP Test Order") Undefined (Obj [])
                eq_refl ltac:(discriminate))
      as (payload & Hrun & _ & Hdefault & _).
    exists payload. split; [exact Hrun|]. by apply Hdefault.
Defined.

(** C9, amended.  When no orderId is given, the id of the body is the
    text order- followed by the clock reading in milliseconds, which is
    not empty; the ids of two such calls differ exactly when their clock
    readings differ. *)
Theorem placeOrder_generated_id mode cfg1 cfg2 address1 address2 reference1 reference2
    isTest1 isTest2 opts1 opts2 now1 now2 :
  nullish address1 = false → nullish address2 = false →
  opts1 ≠ Null → opts2 ≠ Null →
  additional opts1 "orderId" = Undefined → additional opts2 "orderId" = Undefined →
  ∃ payload1 payload2,
    placeOrder_payload mode now1 cfg1 address1 reference1 isTest1 opts1 = Return payload1 ∧
    placeOrder_payload mode now2 cfg2 address2 reference2 isTest2 opts2 = Return payload2 ∧
    own_prop "id" payload1 = Some (Str ("order-" +:+ pretty now1)) ∧
    own_prop "id" payload2 = Some (Str ("order-" +:+ pretty now2)) ∧
    "order-" +:+ pretty now1 ≠ "" ∧
    (own_prop "id" payload1 = own_prop "id" payload2 ↔ now1 = now2).
Proof.
  intros Ha1 Ha2 Ho1 Ho2 Hid1 Hid2.
  destruct (placeOrder_payload_returns mode now1 cfg1 address1 reference1 isTest1 opts1
              Ha1 Ho1) as (ce1 & dl1 & Hrun1).
  destruct (placeOrder_payload_returns mode now2 cfg2 address2 reference2 isTest2 opts2
              Ha2 Ho2) as (ce2 & dl2 & Hrun2).
  eexists _, _. split; [exact Hrun1|]. split; [exact Hrun2|].
  cbn. rewrite Hid1, Hid2. cbn.
  split; [done|]. split; [done|]. split; [done|].
  split.
  - intros [= H]. by apply (inj pretty).
  - by intros ->.
Qed.

Lemma placeOrder_generated_id_witness :
  ∃ payload1 payload2,
    placeOrder_payload "test" 1700000000000 sample_configuration sample_address
      (Str "first") (Bool true) (Obj []) = Return payload1 ∧
    placeOrder_payload "test" 1700000000001 sample_configuration sample_address
      (Str "second") (Bool true) (Obj []) = Return payload2 ∧
    own_prop "id" payload1 = Some (Str "order-1700000000000") ∧
    own_prop "id" payload2 = Some (Str "order-1700000000001") ∧
    own_prop "id" payload1 ≠ own_prop "id" payload2.
Proof.
  destruct (placeOrder_generated_id "test" sample_configuration sample_configuration
              sample_address sample_address (Str "first") (Str "second")
              (Bool true) (Bool true) (Obj []) (Obj []) 1700000000000 1700000000001
              eq_refl eq_refl ltac:(discriminate) ltac:(discriminate) eq_refl eq_refl)
    as (payload1 & payload2 & Hrun1 & Hrun2 & Hid1 & Hid2 & _ & Hsame).
  exists payload1, payload2.
  split; [exact Hrun1|]. split; [exact Hrun2|].
  split; [exact Hid1|]. split; [exact Hid2|].
  intros Heq. apply Hsame in Heq. discriminate.
Defined.

(** C9 as stated fails for two calls that read the same millisecond:
    both bodies carry the same generated id. *)
Lemma placeOrder_same_clock_same_id :
  ∃ payload1 payload2,
    placeOrder_payload "test" 1700000000000 sample_configuration sample_address
      (Str "first") (Bool true) (Obj []) = Return payload1 ∧
    placeOrder_payload "test" 1700000000000 sample_configuration sample_address
      (Str "second") (Bool true) (Obj []) = Return payload2 ∧
    own_prop "id" payload1 = Some (Str "order-1700000000000") ∧
    own_prop "id" payload2 = own_prop "id" payload1.
Proof.
  eexists _, _. split; [reflexivity|]. split; [reflexivity|].
  split; reflexivity.
Qed.


(** ** Results of the tools *)

Lemma report_message_result error :
  Server.report_message error
  = Return (Server.mkResult
              [Server.mkItem "text" (Some ("Error: " +:+ error_message error));
               Server.mkItem "text"
                 (JSON_stringify_2 (Obj [("error", Str (error_message error))]))]
              true).
Proof.
  unfold Server.report_message, Server.formatResult, Server.formattedData. cbn.
  by rewrite andb_false_r.
Qed.

Lemma report_error_result error :
  Server.report_error error
  = Return (Server.mkResult
              [Server.mkItem "text" (Some ("Error: " +:+ error_message error));
               Server.mkItem "text"
                 (JSON_stringify_2
                    (if truthy (error_data error)
                     then Obj [("error", Str (error_message error));
                               ("details", error_data error)]
                     else Obj [("error", error_value error)]))]
              true).
Proof.
  unfold Server.report_error, Server.formatResult, Server.formattedData. cbn.
  by destruct (truthy (error_data error)).
Qed.

Lemma try_catch_report {A} (body : completion A) (report : JsError → completion A) :
  (∀ e, ∃ r, report e = Return r) → ∃ r, try_catch body report = Return r.
Proof. intros H. destruct body as [a|e]; cbn; eauto. Qed.

(** ** SearchProducts *)

Lemma on_error_normalized message error :
  on_error message error = Throw (thrown message error).
Proof. unfold on_error. by rewrite handleApiError_normalized. Qed.

Lemma get_nullish v k : nullish v = true → get v k = Throw (TypeError_read v k).
Proof. by destruct v. Qed.

Lemma get_opt_prop v k : nullish v = false → get_opt v k = prop v k.
Proof. by destruct v. Qed.

Lemma js_or_convertible a b :
  convertible a = true → convertible b = true → convertible (js_or a b) = true.
Proof. unfold js_or. by destruct (truthy a). Qed.

Lemma formatResult_success message data :
  Server.formatResult message data false = Return (result_text message data false).
Proof. reflexivity. Qed.

(** What [getProducts] makes of the completion of its request. *)
Lemma getProducts_outcome client_get enc query options :
  nullish (match options with Undefined => Obj [] | _ => options end) = false →
  ∃ url,
    getProducts client_get enc query options
    = match client_get url with
      | Return response =>
          if nullish (body response)
          then Throw (thrown "Failed to fetch products"
                        (TypeError_read (body response) "data"))
          else if convertible (products_length (body response))
          then Return (reshaped (body response))
          else Throw (thrown "Failed to fetch products" TypeError_convert)
      | Throw e => Throw (thrown "Failed to fetch products" e)
      end.
Proof.
  intros Ho. unfold getProducts.
  rewrite !(get_not_nullish (match options with Undefined => Obj [] | _ => options end))
    by done.
  run_binds.
  match goal with |- context [client_get ?u] => exists u; generalize (client_get u) end.
  intros [response|e]; cbn [try_catch].
  2: { apply on_error_normalized. }
  destruct (nullish (body response)) eqn:Hb.
  { rewrite (get_nullish _ _ Hb). apply on_error_normalized. }
  rewrite !(get_not_nullish (body response)) by done.
  change (get (Obj [("products", js_or (prop (body response) "data") (Arr []));
                    ("meta", js_or (prop (body response) "meta") (Obj []))]) "products")
    with (Return (js_or (prop (body response) "data") (Arr []))).
  cbv beta iota.
  rewrite get_not_nullish.
  2: { unfold js_or. destruct (truthy (prop (body response) "data")) eqn:Hd; [|done].
       by apply truthy_not_nullish. }
  fold (products_length (body response)). unfold ToString.
  destruct (convertible (products_length (body response))); [done|].
  apply on_error_normalized.
Qed.

Lemma getProducts_run client_get enc query options response :
  (∀ url, client_get url = Return response) →
  options ≠ Null →
  nullish (body response) = false →
  convertible (products_length (body response)) = true →
  getProducts client_get enc query options = Return (reshaped (body response)).
Proof.
  intros Hget Ho Hb Hc.
  destruct (getProducts_outcome client_get enc query options) as [url ->].
  { by destruct options. }
  by rewrite Hget, Hb, Hc.
Qed.

(** A search that returns has reshaped an answer of the upstream. *)
Lemma getProducts_returns_inv client_get enc query options result :
  getProducts client_get enc query options = Return result →
  ∃ url response,
    client_get url = Return response ∧ nullish (body response) = false ∧
    convertible (products_length (body response)) = true ∧
    result = reshaped (body response).
Proof.
  intros H.
  destruct (nullish (match options with Undefined => Obj [] | _ => options end)) eqn:Ho.
  { unfold getProducts in H. by rewrite (get_nullish _ "page" Ho) in H. }
  destruct (getProducts_outcome client_get enc query options Ho) as [url Hrun].
  rewrite Hrun in H. exists url.
  destruct (client_get url) as [response|e]; [|done].
  exists response. split; [done|].
  destruct (nullish (body response)); [done|].
  destruct (convertible (products_length (body response))); [|done].
  injection H as <-. done.
Qed.

(** The count the tool shows is the length [getProducts] has logged. *)
Lemma listed_products data :
  js_or (get_opt (js_or (prop data "data") (Arr [])) "length") (Num 0)
  = js_or (products_length data) (Num 0).
Proof.
  unfold products_length. rewrite get_opt_prop; [done|].
  unfold js_or. destruct (truthy (prop data "data")) eqn:Hd; [|done].
  by apply truthy_not_nullish.
Qed.

Lemma searchProducts_found client_get enc query language page per_page data :
  getProducts client_get enc query
    (Obj [("page", js_or page (Num 1)); ("per_page", js_or per_page (Num 20))])
  = Return (reshaped data) →
  convertible (products_length data) = true →
  Server.searchProducts client_get enc query language page per_page
  = Return (result_text
              ("Found " +:+ display (js_or (products_length data) (Num 0)) +:+ " products")
              (reshaped data) false).
Proof.
  intros Hrun Hc. unfold Server.searchProducts. rewrite Hrun. run_binds.
  change (get (reshaped data) "products")
    with (Return (js_or (prop data "data") (Arr []))).
  cbv beta iota. rewrite listed_products.
  rewrite ToString_convertible by (by apply js_or_convertible).
  reflexivity.
Qed.

(** C8.  Every result [getProducts] returns is the reshaped body of an
    answer of the upstream: the object with the two fields products and
    meta, where products is the upstream's field data, or the empty list
    when that is missing, and meta is the upstream's meta, or the empty
    object when that is missing; and every result of the searchProducts
    tool that is no error has such an object as its data.  Against an
    upstream that answers with a body whose list has a length that can be
    logged, and for a query, a page and a page size that have a string
    form, the search does return, and the tool wraps the reshaped object
    in a result that is no error. *)
Theorem searchProducts_reshapes client_get enc query language page per_page options :
  (∀ result,
     getProducts client_get enc query options = Return result →
     ∃ url response,
       client_get url = Return response ∧ nullish (body response) = false ∧
       result = reshaped (body response)) ∧
  (∀ r,
     Server.searchProducts client_get enc query language page per_page = Return r →
     Server.isError r = false →
     ∃ url response message,
       client_get url = Return response ∧ nullish (body response) = false ∧
       r = result_text message (reshaped (body response)) false) ∧
  (∀ response,
     (∀ url, client_get url = Return response) →
     nullish (body response) = false →
     convertible (products_length (body response)) = true →
     convertible query = true → convertible page = true → convertible per_page = true →
     let result := reshaped (body response) in
     getProducts client_get enc query
       (Obj [("page", js_or page (Num 1)); ("per_page", js_or per_page (Num 20))])
     = Return result ∧
     own_prop "products" result = Some (js_or (prop (body response) "data") (Arr [])) ∧
     own_prop "meta" result = Some (js_or (prop (body response) "meta") (Obj [])) ∧
     (∀ l, prop (body response) "data" = Arr l → own_prop "products" result = Some (Arr l)) ∧
     (prop (body response) "data" = Undefined → own_prop "products" result = Some (Arr [])) ∧
     (prop (body response) "meta" = Undefined → own_prop "meta" result = Some (Obj [])) ∧
     ∃ message,
       Server.searchProducts client_get enc query language page per_page
       = Return (result_text message result false)).
Proof.
  split; [|split].
  - intros result H.
    destruct (getProducts_returns_inv _ _ _ _ _ H) as (url & response & ? & ? & _ & ?).
    eauto.
  - intros r Hr He. unfold Server.searchProducts in Hr.
    match type of Hr with
    | context [getProducts ?g ?e ?q ?o] => destruct (getProducts g e q o) as [result|e0] eqn:Hrun
    end.
    + destruct (getProducts_returns_inv _ _ _ _ _ Hrun)
        as (url & response & Hget & Hb & Hc & ->).
      rewrite <-Hrun in Hr. fold (Server.searchProducts client_get enc query language page
                                    per_page) in Hr.
      rewrite (searchProducts_found _ _ _ _ _ _ _ Hrun Hc) in Hr.
      injection Hr as <-. eauto 10.
    + cbn [mbind completion_bind try_catch] in Hr.
      rewrite report_message_result in Hr. injection Hr as <-. done.
  - intros response Hget Hb Hc _ _ _ result.
    assert (getProducts client_get enc query
              (Obj [("page", js_or page (Num 1)); ("per_page", js_or per_page (Num 20))])
            = Return result) as Hrun by (by apply getProducts_run).
    split; [exact Hrun|].
    split; [reflexivity|]. split; [reflexivity|].
    split; [cbn; by intros l ->|].
    split; [cbn; by intros ->|]. split; [cbn; by intros ->|].
    eexists. by apply searchProducts_found.
Qed.

(** The end-to-end example: the stub upstream answers with one product
    under data and a total under meta. *)
Lemma searchProducts_reshapes_witness :
  getProducts (λ _, Return stub_response) plain_query Undefined Undefined
  = Return stub_result ∧
  own_prop "products" stub_result = Some (Arr [Obj [("code", Str "x")]]) ∧
  Server.searchProducts (λ _, Return stub_response) plain_query
    Undefined Undefined Undefined Undefined
  = Return (Server.mkResult
              [Server.mkItem "text" (Some "Found 1 products");
               Server.mkItem "text" (JSON_stringify_2 stub_result)]
              false).
Proof.
  destruct (proj2 (proj2 (searchProducts_reshapes (λ _, Return stub_response) plain_query
                            Undefined Undefined Undefined Undefined Undefined))
              stub_response (λ _, eq_refl) eq_refl eq_refl eq_refl eq_refl eq_refl)
    as (_ & _ & _ & Hproducts & _ & _ & message & Htool).
  split; [reflexivity|]. split; [exact (Hproducts _ eq_refl)|].
  rewrite Htool. f_equal. injection Htool as <-. reflexivity.
Defined.

(** ** Tool results of failures *)

(** X1.  No handler lets an exception escape: each returns a result,
    for every upstream behaviour and all arguments. *)
Lemma handlers_return
    (client_get : string → completion HttpResponse)
    (client_post : string → JsValue → completion HttpResponse)
    (enc : list (string * string) → string) (mode : string) :
  (∀ query language page per_page,
     ∃ r, Server.searchProducts client_get enc query language page per_page = Return r) ∧
  (∀ productCode options address language σ,
     ∃ r σ', Server.configureProduct client_post productCode options address language σ
             = (Return r, σ')) ∧
  (∀ now configuration address reference isTest additionalOptions,
     ∃ r, Server.placeOrder client_post mode now configuration address reference isTest
            additionalOptions = Return r) ∧
  (∀ orderIds, ∃ r, Server.getOrderStatus client_post orderIds = Return r) ∧
  (∀ filters, ∃ r, Server.getAllOrders client_get enc filters = Return r) ∧
  (∀ orderId, ∃ r, Server.cancelOrder client_post orderId = Return r).
Proof.
  assert (∀ e, ∃ r, Server.report_message e = Return r) as Hm.
  { intros e. rewrite report_message_result. eauto. }
  assert (∀ e, ∃ r, Server.report_error e = Return r) as He.
  { intros e. rewrite report_error_result. eauto. }
  repeat split; intros; try (by apply try_catch_report).
  unfold Server.configureProduct, Server.M_try_catch.
  match goal with
  | |- context [match ?b σ with _ => _ end] => destruct (b σ) as [[r|e] σ']
  end; [eauto|].
  unfold lift. destruct (Hm e) as [r ->]. eauto.
Qed.

(** C4, at the failing input.  The upstream rejects a product search
    with status 401 and a body.  [getProducts] throws the error with that
    body as its data; the searchProducts tool returns an error result whose
    data has the message under error and no details.  The placeOrder tool,
    on the same upstream failure, does carry the body under details. *)
Theorem failed_search_reports_no_details :
  getProducts (λ _, Throw unauthorized) plain_query Undefined Undefined
  = Throw (PlainError "Failed to fetch products: HTTP 401 - Unauthorized"
             (Obj [("message", Str "Unauthorized")])) ∧
  Server.searchProducts (λ _, Throw unauthorized) plain_query
    Undefined Undefined Undefined Undefined
  = Return (Server.mkResult
              [Server.mkItem "text"
                 (Some "Error: Failed to fetch products: HTTP 401 - Unauthorized");
               Server.mkItem "text"
                 (JSON_stringify_2
                    (Obj [("error",
                           Str "Failed to fetch products: HTTP 401 - Unauthorized")]))]
              true) ∧
  Server.placeOrder (λ _ _, Throw unauthorized) "test" 1700000000000
    sample_configuration sample_address (Str "MCP Test Order") (Bool true) Undefined
  = Return (Server.mkResult
              [Server.mkItem "text"
                 (Some "Error: Failed to place order: HTTP 401 - Unauthorized");
               Server.mkItem "text"
                 (JSON_stringify_2
                    (Obj [("error", Str "Failed to place order: HTTP 401 - Unauthorized");
                          ("details", Obj [("message", Str "Unauthorized")])]))]
              true).
Proof.
  split; [reflexivity|]. split; reflexivity.
Qed.

(** * Further properties of the client and the tools *)

Lemma falsy_prop_convertible v k : truthy v = false → convertible (prop v k) = true.
Proof.
  destruct v; try done; unfold prop; cbn; intros _; try done.
  by destruct (String.eqb k "length").
Qed.

(** Under a status other than 400 only the message of the body is
    shown. *)
Lemma showable_other_status error response :
  error_response error = Some response →
  lists_errors response = false →
  showable error = convertible (prop (body response) "message").
Proof.
  intros Hr Hs. unfold showable, shown_values. rewrite Hr, Hs, app_nil_r.
  destruct (truthy (body response)) eqn:Hb; cbn [andb].
  - destruct (truthy (prop (body response) "message")) eqn:Hm.
    + cbn [forallb]. apply andb_true_r.
    + by rewrite falsy_convertible.
  - by rewrite falsy_prop_convertible.
Qed.

Lemma lists_errors_other_status response :
  status response ≠ 400%Z → lists_errors response = false.
Proof.
  intros Hs. unfold lists_errors.
  rewrite (bool_decide_eq_false_2 (status response = 400%Z)) by done.
  by rewrite andb_false_r.
Qed.

Lemma normalized_not_listed message error response :
  error_response error = Some response →
  lists_errors response = false →
  normalized message error = (http_head message response, body response).
Proof.
  intros Hr Hs. unfold normalized, validation_errors. rewrite Hr, Hs.
  by rewrite string_app_nil_r.
Qed.

(** X2.  A response whose status is not 400 never gets the list of
    validation errors, whatever its body holds: when the message of the
    body has a string form, the thrown message is the head alone (prefix,
    status and the detail of the body); when it has none, the error of the
    conversion is thrown. *)
Theorem handleApiError_other_status error message response :
  error_response error = Some response →
  status response ≠ 400%Z →
  (convertible (prop (body response) "message") = true →
   handleApiError error message
   = Throw (PlainError (http_head message response) (body response))) ∧
  (convertible (prop (body response) "message") = false →
   handleApiError error message = Throw TypeError_convert).
Proof.
  intros Hr Hs.
  pose proof (lists_errors_other_status _ Hs) as Hl.
  rewrite handleApiError_normalized. unfold thrown.
  rewrite (showable_other_status _ _ Hr Hl), (normalized_not_listed _ _ _ Hr Hl).
  split; by intros ->.
Qed.

Lemma handleApiError_other_status_witness :
  handleApiError
    (AxiosError "Request failed with status code 422"
       (Some (mkResponse 422 (Obj [("message", Str "Unprocessable");
                                   ("errors", Arr [Str "width is required"])]))) true)
    "Failed to configure product"
  = Throw (PlainError "Failed to configure product: HTTP 422 - Unprocessable"
             (Obj [("message", Str "Unprocessable");
                   ("errors", Arr [Str "width is required"])])) ∧
  handleApiError
    (AxiosError "Request failed with status code 500"
       (Some (mkResponse 500 (Obj [("message", Obj [("toString", Num 1)])]))) true)
    "Failed to configure product"
  = Throw (PlainError "Cannot convert object to primitive value" Undefined).
Proof.
  split.
  - apply (handleApiError_other_status
             (AxiosError "Request failed with status code 422"
                (Some (mkResponse 422 (Obj [("message", Str "Unprocessable");
                                            ("errors", Arr [Str "width is required"])])))
                true)
             "Failed to configure product"
             (mkResponse 422 (Obj [("message", Str "Unprocessable");
                                   ("errors", Arr [Str "width is required"])]))
             eq_refl ltac:(discriminate)).
    reflexivity.
  - apply (handleApiError_other_status
             (AxiosError "Request failed with status code 500"
                (Some (mkResponse 500 (Obj [("message", Obj [("toString", Num 1)])]))) true)
             "Failed to configure product"
             (mkResponse 500 (Obj [("message", Obj [("toString", Num 1)])]))
             eq_refl ltac:(discriminate)).
    reflexivity.
Defined.

(** X3.  A response whose body is plain text is reported with that text
    as it is, after the prefix and the status; an empty body adds nothing
    after the status.  The text is also the data of the error. *)
Theorem handleApiError_text_body error message response s :
  error_response error = Some response →
  body response = Str s →
  handleApiError error message
  = Throw (PlainError
             (base_message message +:+ ": HTTP " +:+ pretty (status response) +:+
              (if bool_decide (s = "") then "" else " - " +:+ s))
             (Str s)).
Proof.
  intros Hr Hb.
  assert (lists_errors response = false) as Hl.
  { unfold lists_errors. rewrite Hb. cbn. by rewrite andb_false_r. }
  rewrite handleApiError_normalized. unfold thrown.
  rewrite (showable_other_status _ _ Hr Hl), (normalized_not_listed _ _ _ Hr Hl).
  unfold http_head, body_detail. rewrite Hb. cbn. rewrite eqb_decide.
  by destruct (bool_decide (s = "")).
Qed.

Lemma handleApiError_text_body_witness :
  handleApiError
    (AxiosError "Request failed with status code 502"
       (Some (mkResponse 502 (Str "Bad Gateway"))) true)
    "Failed to get orders"
  = Throw (PlainError "Failed to get orders: HTTP 502 - Bad Gateway" (Str "Bad Gateway")) ∧
  handleApiError
    (AxiosError "Request failed with status code 400" (Some (mkResponse 400 (Str ""))) true)
    ""
  = Throw (PlainError "API request failed: HTTP 400" (Str "")).
Proof.
  split.
  - exact (handleApiError_text_body
             (AxiosError "Request failed with status code 502"
                (Some (mkResponse 502 (Str "Bad Gateway"))) true)
             "Failed to get orders" (mkResponse 502 (Str "Bad Gateway")) "Bad Gateway"
             eq_refl eq_refl).
  - exact (handleApiError_text_body
             (AxiosError "Request failed with status code 400"
                (Some (mkResponse 400 (Str ""))) true)
             "" (mkResponse 400 (Str "")) "" eq_refl eq_refl).
Defined.

(** X4.  A body with a non-empty message string is reported by that
    message, not by its JSON text, whenever the entries of a list of
    errors that are listed have a string form; nothing follows the message
    unless the status is 400 and the body has truthy errors. *)
Theorem handleApiError_message_field error message response m :
  error_response error = Some response →
  own_prop "message" (body response) = Some (Str m) →
  m ≠ "" →
  forallb convertible
    (if lists_errors response then first_entries (prop (body response) "errors") else [])
  = true →
  ∃ rest,
    handleApiError error message
    = Throw (PlainError
               (base_message message +:+ ": HTTP " +:+ pretty (status response) +:+
                " - " +:+ m +:+ rest)
               (body response)) ∧
    (status response ≠ 400%Z → rest = "") ∧
    (truthy (prop (body response) "errors") = false → rest = "").
Proof.
  intros Hr Hm Hne Hl. exists (validation_errors response).
  assert (truthy (body response) = true) as Ht.
  { revert Hm. by destruct (body response). }
  assert (truthy (Str m) = true) as Htm.
  { cbn. by rewrite eqb_decide, bool_decide_eq_false_2. }
  split; [|split].
  - rewrite handleApiError_normalized, thrown_showable.
    + unfold normalized. rewrite Hr. cbn [fst snd].
      unfold http_head, body_detail. rewrite Ht, (prop_own _ _ _ Hm), Htm.
      cbn [display]. by rewrite !string_app_assoc.
    + unfold showable, shown_values. rewrite Hr, Ht, (prop_own _ _ _ Hm), Htm.
      cbn [andb]. rewrite forallb_app.
      destruct (lists_errors response); [|done]. by rewrite Hl.
  - intros Hs. unfold validation_errors. by rewrite lists_errors_other_status.
  - intros He. unfold validation_errors, lists_errors. rewrite He.
    by rewrite andb_false_r.
Qed.

Lemma handleApiError_message_field_witness :
  handleApiError
    (AxiosError "Request failed with status code 404"
       (Some (mkResponse 404 (Obj [("message", Str "Order not found")]))) true)
    "Failed to cancel order"
  = Throw (PlainError "Failed to cancel order: HTTP 404 - Order not found"
             (Obj [("message", Str "Order not found")])).
Proof.
  destruct (handleApiError_message_field
              (AxiosError "Request failed with status code 404"
                 (Some (mkResponse 404 (Obj [("message", Str "Order not found")]))) true)
              "Failed to cancel order"
              (mkResponse 404 (Obj [("message", Str "Order not found")]))
              "Order not found" eq_refl eq_refl ltac:(discriminate) eq_refl)
    as (rest & Hrun & Hrest & _).
  rewrite (Hrest ltac:(discriminate)) in Hrun. exact Hrun.
Defined.

Lemma request_result (c : completion HttpResponse) message :
  try_catch (response ← c; mret (body response)) (on_error message)
  = match c with
    | Return response => Return (body response)
    | Throw e => Throw (thrown message e)
    end.
Proof. destruct c as [r|e]; cbn; [done|apply on_error_normalized]. Qed.

Lemma normalized_prefix message error :
  ∃ rest, (normalized message error).1 = base_message message +:+ rest.
Proof.
  unfold normalized.
  destruct (error_response error) as [r|]; cbn [fst].
  - unfold http_head. eexists. by rewrite !string_app_assoc.
  - eauto.
Qed.

Lemma normalized_data message error :
  (normalized message error).2
  = match error_response error with Some r => body r | None => Null end.
Proof. unfold normalized. by destruct (error_response error). Qed.

Lemma base_message_prefix message : message ≠ "" → base_message message = message.
Proof. intros H. unfold base_message. by rewrite bool_decide_eq_false_2. Qed.

(** What the normaliser throws under a prefix that is not empty: the
    error with the prefix and the data of the failure, or the error of a
    conversion. *)
Lemma thrown_cases message e0 :
  message ≠ "" →
  (showable e0 = true →
   ∃ rest, thrown message e0
           = PlainError (message +:+ rest)
               (match error_response e0 with Some r => body r | None => Null end)) ∧
  (showable e0 = false → thrown message e0 = TypeError_convert).
Proof.
  intros Hm. split; intros Hs.
  - rewrite thrown_showable by done.
    destruct (normalized_prefix message e0) as [rest Hrest].
    exists rest. by rewrite Hrest, normalized_data, base_message_prefix.
  - by apply thrown_not_showable.
Qed.

(** X5.  An error thrown by getOrderStatus, getAllOrders or cancelOrder,
    called with order ids that are strings and filters that have a string
    form, comes from the failure of its one request and is what the
    normaliser throws for it: the error that starts with the prefix of the
    operation and carries the body of the response, or null when there was
    none; or, when a value of the body that is shown has no string form,
    the error of the conversion. *)
Theorem operation_failures_normalized
    (client_get : string → completion HttpResponse)
    (client_post : string → JsValue → completion HttpResponse)
    (enc : list (string * string) → string) e :
  let normalises prefix e0 :=
    handleApiError e0 prefix = Throw e ∧
    (showable e0 = true →
     ∃ rest, e = PlainError (prefix +:+ rest)
                   (match error_response e0 with Some r => body r | None => Null end)) ∧
    (showable e0 = false → e = TypeError_convert) in
  (∀ ids : list string, getOrderStatus client_post (map Str ids) = Throw e →
     ∃ e0, client_post "/order/status"
             (Obj [("orders", Arr (map (λ id, Obj [("id", id)]) (map Str ids)))])
           = Throw e0 ∧
       normalises "Failed to get order status" e0) ∧
  (∀ filters,
     forallb (λ kv, convertible kv.2) filters = true →
     getAllOrders client_get enc filters = Throw e →
     ∃ query e0, client_get ("/orders?" +:+ query) = Throw e0 ∧
       normalises "Failed to get orders" e0) ∧
  (∀ id : string, cancelOrder client_post (Str id) = Throw e →
     ∃ e0, client_post "/order/cancel" (Obj [("id", Str id)]) = Throw e0 ∧
       normalises "Failed to cancel order" e0).
Proof.
  intros normalises.
  assert (∀ (c : completion HttpResponse) message,
            message ≠ "" →
            try_catch (response ← c; mret (body response)) (on_error message) = Throw e →
            ∃ e0, c = Throw e0 ∧ normalises message e0) as H.
  { intros c message Hm. rewrite request_result. destruct c as [r|e0]; [done|].
    intros [= <-]. exists e0. split; [done|]. unfold normalises.
    split; [apply handleApiError_normalized|]. by apply thrown_cases. }
  split; [|split].
  - intros ids. apply H. discriminate.
  - intros filters _ Hrun. eexists. apply H; [discriminate|exact Hrun].
  - intros id. apply H. discriminate.
Qed.

Lemma operation_failures_normalized_witness :
  ∃ rest,
    cancelOrder (λ _ _, Throw unauthorized) (Str "o1")
    = Throw (PlainError ("Failed to cancel order" +:+ rest)
               (Obj [("message", Str "Unauthorized")])).
Proof.
  destruct (operation_failures_normalized (λ _, Throw unauthorized)
              (λ _ _, Throw unauthorized) plain_query
              (PlainError "Failed to cancel order: HTTP 401 - Unauthorized"
                 (Obj [("message", Str "Unauthorized")])))
    as (_ & _ & Hcancel).
  destruct (Hcancel "o1" eq_refl) as (e0 & He0 & _ & He & _).
  injection He0 as <-. destruct (He eq_refl) as [rest Hrest].
  exists rest. etrans; [|exact (f_equal Throw Hrest)]. reflexivity.
Defined.

(** The outcome of a tool that makes one request, reads one field of
    the answer and shows a value made of it. *)
Lemma tool_outcome (c : completion HttpResponse) prefix k
    (value : JsValue → JsValue) (text : string → string) :
  try_catch
    (result ← try_catch (response ← c; mret (body response)) (on_error prefix);
     x ← get result k;
     shown ← ToString (value x);
     Server.formatResult (text shown) result false)
    Server.report_message
  = match c with
    | Return response =>
        if nullish (body response)
        then Server.report_message (TypeError_read (body response) k)
        else if convertible (value (prop (body response) k))
        then Return (result_text (text (display (value (prop (body response) k))))
                       (body response) false)
        else Server.report_message TypeError_convert
    | Throw e0 => Server.report_message (thrown prefix e0)
    end.
Proof.
  rewrite request_result. destruct c as [response|e0]; [|reflexivity].
  run_binds. destruct (nullish (body response)) eqn:Hb.
  - by rewrite (get_nullish _ _ Hb).
  - rewrite get_not_nullish by done. unfold ToString.
    by destruct (convertible (value (prop (body response) k))).
Qed.

Lemma report_message_isError e r : Server.report_message e = Return r → Server.isError r = true.
Proof. rewrite report_message_result. by intros [= <-]. Qed.

Lemma report_message_returns e : ∃ r, Server.report_message e = Return r.
Proof. rewrite report_message_result. eauto. Qed.

(** X22.  The cancelOrder tool posts the object with the one field id to
    /order/cancel.  It reports success exactly when the upstream answers
    with a body that is neither null nor undefined and whose status has a
    string form; the result then has the body as its data, and its message
    shows the status of the body: the string as it is, and undefined when
    the body has none. *)
Theorem cancelOrder_tool (client_post : string → JsValue → completion HttpResponse) id :
  let answer := client_post "/order/cancel" (Obj [("id", Str id)]) in
  ∃ r,
    Server.cancelOrder client_post (Str id) = Return r ∧
    (Server.isError r = false ↔
     ∃ response,
       answer = Return response ∧ nullish (body response) = false ∧
       convertible (prop (body response) "status") = true) ∧
    (∀ response,
       answer = Return response →
       nullish (body response) = false →
       (convertible (prop (body response) "status") = true →
        ∃ message, r = result_text message (body response) false) ∧
       (∀ s, prop (body response) "status" = Str s →
          r = result_text ("Order " +:+ id +:+ " cancellation result: " +:+ s)
                (body response) false) ∧
       (prop (body response) "status" = Undefined →
        r = result_text ("Order " +:+ id +:+ " cancellation result: undefined")
              (body response) false)).
Proof.
  intros answer. unfold Server.cancelOrder, cancelOrder. fold answer.
  pose proof (tool_outcome answer "Failed to cancel order" "status" (λ x, x)
                (λ shown, "Order " +:+ display (Str id) +:+ " cancellation result: " +:+
                          shown)) as ->.
  destruct answer as [response|e0].
  - destruct (nullish (body response)) eqn:Hb.
    + destruct (report_message_returns (TypeError_read (body response) "status"))
        as [r Hr].
      exists r. split; [done|]. apply report_message_isError in Hr. split.
      * split; [congruence|]. intros (? & [= <-] & ? & _). congruence.
      * intros ? [= <-] ?. congruence.
    + destruct (convertible (prop (body response) "status")) eqn:Hc.
      * eexists. split; [done|]. split.
        { split; [eauto|done]. }
        intros ? [= <-] _. split; [eauto|]. split.
        -- by intros s ->.
        -- by intros ->.
      * destruct (report_message_returns TypeError_convert) as [r Hr].
        exists r. split; [done|]. apply report_message_isError in Hr. split.
        { split; [congruence|]. intros (? & [= <-] & _ & ?). congruence. }
        intros ? [= <-] _. split; [congruence|]. split.
        -- intros s Hs. by rewrite Hs in Hc.
        -- intros Hs. by rewrite Hs in Hc.
  - destruct (report_message_returns (thrown "Failed to cancel order" e0)) as [r Hr].
    exists r. split; [done|]. apply report_message_isError in Hr. split.
    + split; [congruence|]. by intros (? & ? & _).
    + by intros ? ?.
Qed.

Lemma cancelOrder_tool_witness :
  Server.cancelOrder (λ _ _, Return (mkResponse 200 (Obj [("status", Str "cancelled")])))
    (Str "o1")
  = Return (result_text "Order o1 cancellation result: cancelled"
              (Obj [("status", Str "cancelled")]) false) ∧
  ∃ r,
    Server.cancelOrder
      (λ _ _, Return (mkResponse 200 (Obj [("status", Obj [("toString", Num 1)])])))
      (Str "o1") = Return r ∧
    Server.isError r = true.
Proof.
  split.
  - destruct (cancelOrder_tool
                (λ _ _, Return (mkResponse 200 (Obj [("status", Str "cancelled")])))
                "o1") as (r & Hrun & _ & Hok).
    rewrite Hrun. f_equal.
    exact (proj1 (proj2 (Hok _ eq_refl eq_refl)) "cancelled" eq_refl).
  - destruct (cancelOrder_tool
                (λ _ _, Return (mkResponse 200 (Obj [("status", Obj [("toString", Num 1)])])))
                "o1") as (r & Hrun & Hiff & _).
    exists r. split; [exact Hrun|].
    destruct (Server.isError r); [done|].
    destruct (proj1 Hiff eq_refl) as (response & [= <-] & _ & Hc). discriminate.
Defined.

Lemma listed_count_array data k l :
  prop data k = Arr l → listed_count data k = Num (Z.of_nat (length l)) ∨
                        (l = [] ∧ listed_count data k = Num 0).
Proof.
  unfold listed_count. intros ->. unfold js_or, get_opt. cbn.
  destruct l; [by right|by left].
Qed.

Lemma listed_count_array_text data k l :
  prop data k = Arr l →
  convertible (listed_count data k) = true ∧
  display (listed_count data k) = pretty (Z.of_nat (length l)).
Proof.
  intros H. destruct (listed_count_array _ _ _ H) as [->|[-> ->]]; done.
Qed.

Lemma listed_count_missing data k :
  prop data k = Undefined → listed_count data k = Num 0.
Proof. unfold listed_count. by intros ->. Qed.

(** The result of a tool that counts the orders of the answer. *)
Lemma count_result (c : completion HttpResponse) (text : string → string)
    (h : JsError → JsError) r :
  match c with
  | Return response =>
      if nullish (body response)
      then Server.report_message (TypeError_read (body response) "orders")
      else if convertible (listed_count (body response) "orders")
      then Return (result_text (text (display (listed_count (body response) "orders")))
                     (body response) false)
      else Server.report_message TypeError_convert
  | Throw e0 => Server.report_message (h e0)
  end = Return r →
  (Server.isError r = false ↔
   ∃ response,
     c = Return response ∧ nullish (body response) = false ∧
     convertible (listed_count (body response) "orders") = true) ∧
  (∀ response,
     c = Return response →
     nullish (body response) = false →
     (convertible (listed_count (body response) "orders") = true →
      ∃ message, r = result_text message (body response) false) ∧
     (∀ l, prop (body response) "orders" = Arr l →
        r = result_text (text (pretty (Z.of_nat (length l)))) (body response) false) ∧
     (prop (body response) "orders" = Undefined →
      r = result_text (text "0") (body response) false)).
Proof.
  destruct c as [response|e0].
  - destruct (nullish (body response)) eqn:Hb.
    + intros Hr. apply report_message_isError in Hr. split.
      * split; [congruence|]. intros (? & [= <-] & ? & _). congruence.
      * intros ? [= <-] ?. congruence.
    + destruct (convertible (listed_count (body response) "orders")) eqn:Hc.
      * intros [= <-]. split.
        { split; [eauto|done]. }
        intros ? [= <-] _. split; [eauto|]. split.
        -- intros l Hl. by rewrite (proj2 (listed_count_array_text _ _ _ Hl)).
        -- intros Hm. by rewrite (listed_count_missing _ _ Hm).
      * intros Hr. apply report_message_isError in Hr. split.
        { split; [congruence|]. intros (? & [= <-] & _ & ?). congruence. }
        intros ? [= <-] _. split; [congruence|]. split.
        -- intros l Hl. rewrite (proj1 (listed_count_array_text _ _ _ Hl)) in Hc. done.
        -- intros Hm. by rewrite (listed_count_missing _ _ Hm) in Hc.
  - intros Hr. apply report_message_isError in Hr. split.
    + split; [congruence|]. by intros (? & ? & _).
    + by intros ? ?.
Qed.

(** X20.  The getOrderStatus tool posts one object per order id, in
    order, under orders.  It reports success exactly when the upstream
    answers with a body that is neither null nor undefined and the count
    of its orders has a string form; the data is then the body, and the
    message counts the orders of the answer: the length of their list, and
    0 when the body has none. *)
Theorem getOrderStatus_tool (client_post : string → JsValue → completion HttpResponse)
    (ids : list string) :
  let request := Obj [("orders", Arr (map (λ id, Obj [("id", id)]) (map Str ids)))] in
  let answer := client_post "/order/status" request in
  ∃ r,
    Server.getOrderStatus client_post (map Str ids) = Return r ∧
    keys request = ["orders"] ∧
    (Server.isError r = false ↔
     ∃ response,
       answer = Return response ∧ nullish (body response) = false ∧
       convertible (listed_count (body response) "orders") = true) ∧
    (∀ response,
       answer = Return response →
       nullish (body response) = false →
       (convertible (listed_count (body response) "orders") = true →
        ∃ message, r = result_text message (body response) false) ∧
       (∀ l, prop (body response) "orders" = Arr l →
          r = result_text
                ("Retrieved status for " +:+ pretty (Z.of_nat (length l)) +:+ " orders")
                (body response) false) ∧
       (prop (body response) "orders" = Undefined →
        r = result_text "Retrieved status for 0 orders" (body response) false)).
Proof.
  intros request answer.
  assert (∃ r, Server.getOrderStatus client_post (map Str ids) = Return r) as [r Hr].
  { apply try_catch_report, report_message_returns. }
  exists r. split; [done|]. split; [done|].
  unfold Server.getOrderStatus, getOrderStatus in Hr. fold request answer in Hr.
  rewrite (tool_outcome answer "Failed to get order status" "orders"
             (λ orders, js_or (get_opt orders "length") (Num 0))
             (λ count, "Retrieved status for " +:+ count +:+ " orders")) in Hr.
  apply (count_result answer
           (λ count, "Retrieved status for " +:+ count +:+ " orders")
           (thrown "Failed to get order status") r).
  destruct answer as [response|e0]; exact Hr.
Qed.

Lemma getOrderStatus_tool_witness :
  Server.getOrderStatus
    (λ _ _, Return (mkResponse 200
                      (Obj [("orders", Arr [Obj [("id", Str "o1")]; Obj [("id", Str "o2")]])])))
    [Str "o1"; Str "o2"]
  = Return (result_text "Retrieved status for 2 orders"
              (Obj [("orders", Arr [Obj [("id", Str "o1")]; Obj [("id", Str "o2")]])]) false).
Proof.
  destruct (getOrderStatus_tool
              (λ _ _, Return (mkResponse 200
                 (Obj [("orders", Arr [Obj [("id", Str "o1")]; Obj [("id", Str "o2")]])])))
              ["o1"; "o2"])
    as (r & Hrun & _ & _ & Hok).
  etrans; [exact Hrun|]. f_equal.
  exact (proj1 (proj2 (Hok _ eq_refl eq_refl)) _ eq_refl).
Defined.

(** X21.  The getAllOrders tool, given filters that have a string form,
    requests /orders? followed by the encoded filters, one parameter per
    filter under its name, a string filter by its own value (no parameter
    when the argument is left out).  It reports success exactly when the
    upstream answers with a body that is neither null nor undefined and
    the count of its orders has a string form; the data is then the body,
    and the message counts the orders of the answer. *)
Theorem getAllOrders_tool (client_get : string → completion HttpResponse)
    (enc : list (string * string) → string) filters :
  forallb (λ kv, convertible kv.2) (default [] filters) = true →
  ∃ r params,
    Server.getAllOrders client_get enc filters = Return r ∧
    map fst params = map fst (default [] filters) ∧
    (∀ given, filters = Some (map (λ kv, (kv.1, Str kv.2)) given) → params = given) ∧
    (filters = None → params = []) ∧
    let answer := client_get ("/orders?" +:+ enc params) in
    (Server.isError r = false ↔
     ∃ response,
       answer = Return response ∧ nullish (body response) = false ∧
       convertible (listed_count (body response) "orders") = true) ∧
    (∀ response,
       answer = Return response →
       nullish (body response) = false →
       (convertible (listed_count (body response) "orders") = true →
        ∃ message, r = result_text message (body response) false) ∧
       (∀ l, prop (body response) "orders" = Arr l →
          r = result_text ("Retrieved " +:+ pretty (Z.of_nat (length l)) +:+ " orders")
                (body response) false) ∧
       (prop (body response) "orders" = Undefined →
        r = result_text "Retrieved 0 orders" (body response) false)).
Proof.
  intros _.
  assert (∃ r, Server.getAllOrders client_get enc filters = Return r) as [r Hr].
  { apply try_catch_report, report_message_returns. }
  exists r, (map (λ kv, (kv.1, display kv.2)) (default [] filters)).
  split; [done|]. split.
  { rewrite map_map. by apply map_ext. }
  split.
  { intros given ->. cbn [from_option id]. rewrite map_map.
    rewrite <-(map_id given) at 2. apply map_ext. by intros []. }
  split; [by intros ->|].
  intros answer.
  unfold Server.getAllOrders, getAllOrders in Hr. fold answer in Hr.
  rewrite (tool_outcome answer "Failed to get orders" "orders"
             (λ orders, js_or (get_opt orders "length") (Num 0))
             (λ count, "Retrieved " +:+ count +:+ " orders")) in Hr.
  apply (count_result answer (λ count, "Retrieved " +:+ count +:+ " orders")
           (thrown "Failed to get orders") r).
  destruct answer as [response|e0]; exact Hr.
Qed.

Lemma getAllOrders_tool_witness :
  Server.getAllOrders (λ _, Return (mkResponse 200 (Obj [("orders", Arr [])]))) plain_query
    (Some [("status", Str "shipped"); ("customer_order_id", Str "42")])
  = Return (result_text "Retrieved 0 orders" (Obj [("orders", Arr [])]) false).
Proof.
  destruct (getAllOrders_tool (λ _, Return (mkResponse 200 (Obj [("orders", Arr [])])))
              plain_query (Some [("status", Str "shipped"); ("customer_order_id", Str "42")])
              eq_refl)
    as (r & params & Hrun & _ & _ & _ & _ & Hok).
  etrans; [exact Hrun|]. f_equal.
  exact (proj1 (proj2 (Hok _ eq_refl eq_refl)) [] eq_refl).
Defined.
Lemma placeOrder_payload_shape mode now cfg address reference isTest opts :
  nullish address = false → opts ≠ Null →
  placeOrder_payload mode now cfg address reference isTest opts
  = Return (Obj
      ([("order_type",
         Str (if truthy (match isTest with
                         | Undefined => Bool (String.eqb mode "test")
                         | _ => isTest
                         end) then "test" else "production"));
        ("reference", reference);
        ("id", js_or (additional opts "orderId") (Str ("order-" +:+ pretty now)));
        ("contact_email",
         js_or (prop address "address_email")
           (js_or (additional opts "contactEmail") (Str "")))]
       ++ spread_list_field "callback_url" (additional opts "callbackUrl")
       ++ spread_list_field "error_email_addresses" (additional opts "errorEmails")
       ++ [("deliveries",
            Arr [Obj [("address", formatted_address address);
                      ("shipping_method_preset",
                       js_or (additional opts "shippingMethodPreset") (Str "cheapest"));
                      ("delivery_date_preset",
                       js_or (additional opts "deliveryDatePreset") (Str "cheapest"))]]);
           ("products", Arr (map formatProduct (default [] (products cfg))))])%list).
Proof.
  intros Ha Ho. unfold placeOrder_payload.
  rewrite !(get_not_nullish address) by done.
  rewrite !additional_get by done.
  run_binds.
  assert (∀ a b, js_or a b = if truthy a then a else b) as Hor by done.
  rewrite (Hor (prop address "address_email")
             (js_or (additional opts "contactEmail") (Str ""))).
  by destruct (truthy (prop address "address_email")).
Qed.

(** X16.  When a truthy orderId is given, it is the id of the body, and
    the body does not depend on the clock: two calls with the same
    arguments build the same body at any two times. *)
Theorem placeOrder_supplied_id mode cfg address reference isTest opts :
  nullish address = false → opts ≠ Null →
  truthy (additional opts "orderId") = true →
  ∀ now1 now2,
    placeOrder_payload mode now1 cfg address reference isTest opts
    = placeOrder_payload mode now2 cfg address reference isTest opts ∧
    ∃ payload,
      placeOrder_payload mode now1 cfg address reference isTest opts = Return payload ∧
      own_prop "id" payload = Some (additional opts "orderId").
Proof.
  intros Ha Ho Hid now1 now2.
  rewrite !placeOrder_payload_shape by done.
  assert (∀ b, js_or (additional opts "orderId") b = additional opts "orderId") as Hor.
  { intros b. unfold js_or. by rewrite Hid. }
  rewrite !Hor. split; [done|].
  eexists. split; [done|]. reflexivity.
Qed.

Lemma placeOrder_supplied_id_witness :
  placeOrder_payload "test" 1700000000000 sample_configuration sample_address
    (Str "MCP Test Order") (Bool true) (Obj [("orderId", Str "test-order-1")])
  = placeOrder_payload "test" 1700000000001 sample_configuration sample_address
      (Str "MCP Test Order") (Bool true) (Obj [("orderId", Str "test-order-1")]).
Proof.
  apply (placeOrder_supplied_id "test" sample_configuration sample_address
           (Str "MCP Test Order") (Bool true) (Obj [("orderId", Str "test-order-1")])
           eq_refl ltac:(discriminate) eq_refl 1700000000000 1700000000001).
Defined.

(** X14.  The body of an order has the fields order_type, reference, id,
    contact_email, deliveries and products, in this order, with
    callback_url and error_email_addresses between contact_email and
    deliveries when given, and no other field.  reference is passed on;
    contact_email is the email of the address, else the contactEmail
    option, else the empty string. *)
Theorem placeOrder_payload_keys mode now cfg address reference isTest opts :
  nullish address = false → opts ≠ Null →
  ∃ payload,
    placeOrder_payload mode now cfg address reference isTest opts = Return payload ∧
    keys payload
    = (["order_type"; "reference"; "id"; "contact_email"]
       ++ (if truthy (additional opts "callbackUrl") then ["callback_url"] else [])
       ++ (if truthy (additional opts "errorEmails") then ["error_email_addresses"] else [])
       ++ ["deliveries"; "products"])%list ∧
    NoDup (keys payload) ∧
    own_prop "reference" payload = Some reference ∧
    own_prop "contact_email" payload
    = Some (if truthy (prop address "address_email") then prop address "address_email"
            else if truthy (additional opts "contactEmail")
                 then additional opts "contactEmail"
                 else Str "").
Proof.
  intros Ha Ho. rewrite placeOrder_payload_shape by done.
  eexists. split; [done|].
  unfold keys, own_prop, spread_list_field.
  destruct (truthy (additional opts "callbackUrl")),
           (truthy (additional opts "errorEmails")); cbn;
    (split; [done|]); (split; [by apply (bool_decide_eq_true_1 _)|]); done.
Qed.

Lemma placeOrder_payload_keys_witness :
  ∃ payload,
    placeOrder_payload "test" 1700000000000 sample_configuration sample_address
      (Str "MCP Test Order") (Bool true)
      (Obj [("contactEmail", Str "buyer@example.com")]) = Return payload ∧
    keys payload
    = ["order_type"; "reference"; "id"; "contact_email"; "deliveries"; "products"] ∧
    own_prop "contact_email" payload = Some (Str "buyer@example.com").
Proof.
  destruct (placeOrder_payload_keys "test" 1700000000000 sample_configuration
              sample_address (Str "MCP Test Order") (Bool true)
              (Obj [("contactEmail", Str "buyer@example.com")])
              eq_refl ltac:(discriminate))
    as (payload & Hrun & Hkeys & _ & _ & Hmail).
  exists payload. split; [exact Hrun|]. split; [exact Hkeys | exact Hmail].
Defined.

(** X15.  The body of an order has exactly one delivery.  Its address
    has the eleven upstream fields: company_name, addition, phone and
    email are the empty string when the caller gave none, the other seven
    are passed on as given.  Both presets are cheapest unless given. *)
Theorem placeOrder_delivery mode now cfg address reference isTest opts :
  nullish address = false → opts ≠ Null →
  ∃ payload delivery delivered,
    placeOrder_payload mode now cfg address reference isTest opts = Return payload ∧
    own_prop "deliveries" payload = Some (Arr [delivery]) ∧
    keys delivery = ["address"; "shipping_method_preset"; "delivery_date_preset"] ∧
    own_prop "address" delivery = Some delivered ∧
    keys delivered
    = ["company_name"; "first_name"; "last_name"; "street"; "house_number"; "addition";
       "postal_code"; "city"; "country"; "phone"; "email"] ∧
    Forall (λ kk, own_prop kk.1 delivered = Some (js_or (prop address kk.2) (Str "")))
      [("company_name", "address_company_name"); ("addition", "address_addition");
       ("phone", "address_telephone_number"); ("email", "address_email")] ∧
    Forall (λ kk, own_prop kk.1 delivered = Some (prop address kk.2))
      [("first_name", "address_first_name"); ("last_name", "address_last_name");
       ("street", "address_street"); ("house_number", "address_house_number");
       ("postal_code", "address_postal_code"); ("city", "address_city");
       ("country", "address_country")] ∧
    own_prop "shipping_method_preset" delivery
    = Some (js_or (additional opts "shippingMethodPreset") (Str "cheapest")) ∧
    own_prop "delivery_date_preset" delivery
    = Some (js_or (additional opts "deliveryDatePreset") (Str "cheapest")).
Proof.
  intros Ha Ho. rewrite placeOrder_payload_shape by done.
  eexists _, _, (formatted_address address). split; [done|]. split.
  { unfold own_prop, spread_list_field.
    destruct (truthy (additional opts "callbackUrl")),
             (truthy (additional opts "errorEmails")); reflexivity. }
  split; [done|]. split; [done|]. split; [done|].
  split; [repeat constructor|]. split; [repeat constructor|]. done.
Qed.

Lemma placeOrder_delivery_witness :
  ∃ payload delivery delivered,
    placeOrder_payload "test" 1700000000000 sample_configuration sample_address
      (Str "MCP Test Order") (Bool true) (Obj []) = Return payload ∧
    own_prop "deliveries" payload = Some (Arr [delivery]) ∧
    own_prop "address" delivery = Some delivered ∧
    own_prop "company_name" delivered = Some (Str "") ∧
    own_prop "city" delivered = Some (Str "Test City") ∧
    own_prop "shipping_method_preset" delivery = Some (Str "cheapest").
Proof.
  destruct (placeOrder_delivery "test" 1700000000000 sample_configuration
              sample_address (Str "MCP Test Order") (Bool true) (Obj [])
              eq_refl ltac:(discriminate))
    as (payload & delivery & delivered & Hrun & Hd & _ & Ha & _ & Hopt & Hreq & Hship & _).
  exists payload, delivery, delivered.
  split; [exact Hrun|]. split; [exact Hd|]. split; [exact Ha|].
  apply Forall_cons in Hopt as [Hcompany _].
  do 5 apply Forall_cons in Hreq as [_ Hreq]. apply Forall_cons in Hreq as [Hcity _].
  split; [exact Hcompany|]. split; [exact Hcity | exact Hship].
Defined.

(** X13.  The entry built for a product whose options, files and
    uploaders are lists when present: its code is the product's code,
    else its customer code; a list of options, files or uploaders that is
    not empty is passed on as it is; absent or empty options or uploaders
    give no field; the uploader is passed on when truthy; and the entry
    has no field besides code, options, files, uploader and uploaders, in
    this order. *)
Theorem formatProduct_entry product :
  let entry := formatProduct product in
  own_prop "code" entry
  = Some (js_or (product_code product) (product_customer_code product)) ∧
  (∀ o os, product_options product = Some (o :: os) →
           own_prop "options" entry = Some (Arr (o :: os))) ∧
  (none_supplied (product_options product) → own_prop "options" entry = None) ∧
  (∀ f fs, product_files product = Some (f :: fs) →
           own_prop "files" entry = Some (Arr (f :: fs))) ∧
  (∀ u us, product_uploaders product = Some (u :: us) →
           own_prop "uploaders" entry = Some (Arr (u :: us))) ∧
  (none_supplied (product_uploaders product) → own_prop "uploaders" entry = None) ∧
  own_prop "uploader" entry
  = (if truthy (product_uploader product) then Some (product_uploader product) else None) ∧
  keys entry `sublist_of` ["code"; "options"; "files"; "uploader"; "uploaders"].
Proof.
  destruct product as [c cc [[|o os]|] [[|f fs]|] u [[|w ws]|]];
    unfold formatProduct, none_supplied; cbn; destruct (truthy u); cbn;
    repeat split; try done; try (by intros ? ? [= <- <-]); try (by intros [|]).
  all: repeat first [apply sublist_nil | apply sublist_skip | apply sublist_cons].
Qed.

Lemma formatProduct_entry_witness :
  own_prop "code" (formatProduct filed_product) = Some (Str "my-banner") ∧
  own_prop "files" (formatProduct filed_product)
  = Some (Arr [Obj [("uri", Str "https://example.com/art.pdf"); ("fill", Bool false)]]) ∧
  own_prop "uploaders" (formatProduct filed_product) = None.
Proof.
  destruct (formatProduct_entry filed_product) as (Hcode & _ & _ & Hfiles & _ & Hnone & _).
  split; [exact Hcode|]. split; [exact (Hfiles _ _ eq_refl)|].
  apply Hnone. by right.
Defined.

Lemma thrown_no_response prefix m :
  prefix ≠ "" →
  thrown prefix (AxiosError m None true)
  = PlainError (prefix +:+ ": No response received") Null.
Proof.
  intros H. unfold thrown, showable, normalized. cbn.
  by rewrite base_message_prefix.
Qed.

Lemma thrown_plain prefix m d :
  prefix ≠ "" → thrown prefix (PlainError m d) = PlainError (prefix +:+ ": " +:+ m) Null.
Proof.
  intros H. unfold thrown, showable, normalized. cbn.
  by rewrite base_message_prefix.
Qed.

Lemma placeOrder_tool_failure (client_post : string → JsValue → completion HttpResponse)
    mode now cfg address reference isTest opts e0 :
  nullish address = false →
  (∀ url payload, client_post url payload = Throw e0) →
  Server.placeOrder client_post mode now cfg address reference isTest opts
  = Server.report_error (thrown "Failed to place order" e0).
Proof.
  intros Ha Hpost. unfold Server.placeOrder, placeOrder.
  rewrite placeOrder_payload_shape;
    [|done|unfold js_or; destruct (truthy opts) eqn:Ho; [by destruct opts|done]].
  run_binds. rewrite Hpost. cbn -[Server.report_error on_error].
  rewrite on_error_normalized. reflexivity.
Qed.

Lemma report_error_conversion :
  Server.report_error TypeError_convert
  = Return (result_text "Error: Cannot convert object to primitive value"
              (Obj [("error", Obj [])]) true).
Proof. reflexivity. Qed.

Lemma report_message_conversion :
  Server.report_message TypeError_convert
  = Return (result_text "Error: Cannot convert object to primitive value"
              (Obj [("error", Str "Cannot convert object to primitive value")]) true).
Proof. reflexivity. Qed.

(** X18.  When the upstream rejects an order, placed under a reference
    that is a string, with a response whose body is truthy, the placeOrder
    tool returns an error result.  When the values of the body that are
    shown have a string form, its data has the normalised message under
    error and that body under details; when one has none, the result
    reports the error of the conversion, and its data has an empty object
    under error. *)
Theorem placeOrder_tool_details (client_post : string → JsValue → completion HttpResponse)
    mode now cfg address (reference : string) isTest opts e0 response :
  nullish address = false →
  (∀ url payload, client_post url payload = Throw e0) →
  error_response e0 = Some response →
  truthy (body response) = true →
  (showable e0 = true →
   ∃ text,
     Server.placeOrder client_post mode now cfg address (Str reference) isTest opts
     = Return (result_text ("Error: Failed to place order" +:+ text)
                 (Obj [("error", Str ("Failed to place order" +:+ text));
                       ("details", body response)])
                 true)) ∧
  (showable e0 = false →
   Server.placeOrder client_post mode now cfg address (Str reference) isTest opts
   = Return (result_text "Error: Cannot convert object to primitive value"
               (Obj [("error", Obj [])]) true)).
Proof.
  intros Ha Hpost Hr Ht.
  rewrite (placeOrder_tool_failure _ _ _ _ _ _ _ _ e0) by done.
  split; intros Hs.
  - rewrite thrown_showable by done.
    rewrite report_error_result. cbn [error_data error_message].
    rewrite normalized_data, Hr, Ht.
    destruct (normalized_prefix "Failed to place order" e0) as [rest Hrest].
    exists rest. rewrite Hrest. reflexivity.
  - rewrite thrown_not_showable by done. apply report_error_conversion.
Qed.

Lemma placeOrder_tool_details_witness :
  (∃ text,
     Server.placeOrder (λ _ _, Throw unauthorized) "test" 1700000000000
       sample_configuration sample_address (Str "MCP Test Order") (Bool true) Undefined
     = Return (result_text ("Error: Failed to place order" +:+ text)
                 (Obj [("error", Str ("Failed to place order" +:+ text));
                       ("details", Obj [("message", Str "Unauthorized")])])
                 true)) ∧
  Server.placeOrder
    (λ _ _, Throw (AxiosError "Request failed with status code 500"
                     (Some (mkResponse 500 (Obj [("message", Obj [("toString", Num 1)])])))
                     true))
    "test" 1700000000000 sample_configuration sample_address (Str "MCP Test Order")
    (Bool true) Undefined
  = Return (result_text "Error: Cannot convert object to primitive value"
              (Obj [("error", Obj [])]) true).
Proof.
  split.
  - exact (proj1 (placeOrder_tool_details (λ _ _, Throw unauthorized) "test" 1700000000000
                    sample_configuration sample_address "MCP Test Order" (Bool true)
                    Undefined unauthorized
                    (mkResponse 401 (Obj [("message", Str "Unauthorized")]))
                    eq_refl (λ _ _, eq_refl) eq_refl eq_refl) eq_refl).
  - exact (proj2 (placeOrder_tool_details
                    (λ _ _, Throw (AxiosError "Request failed with status code 500"
                                     (Some (mkResponse 500
                                              (Obj [("message", Obj [("toString", Num 1)])])))
                                     true))
                    "test" 1700000000000
                    sample_configuration sample_address "MCP Test Order" (Bool true)
                    Undefined _
                    (mkResponse 500 (Obj [("message", Obj [("toString", Num 1)])]))
                    eq_refl (λ _ _, eq_refl) eq_refl eq_refl) eq_refl).
Defined.

Lemma searchProducts_failure client_get enc query language page per_page e0 :
  (∀ url, client_get url = Throw e0) →
  Server.searchProducts client_get enc query language page per_page
  = Server.report_message (thrown "Failed to fetch products" e0).
Proof.
  intros Hget. unfold Server.searchProducts.
  destruct (getProducts_outcome client_get enc query
              (Obj [("page", js_or page (Num 1)); ("per_page", js_or per_page (Num 20))])
              eq_refl) as [url ->].
  by rewrite Hget.
Qed.

(** X19.  When no response arrives, the tools report the prefix of their
    operation followed by No response received, in the message and under
    error.  The placeOrder tool differs: under error its data has the
    serialised error object, which holds only data: null. *)
Theorem network_failure_results
    (client_get : string → completion HttpResponse)
    (client_post : string → JsValue → completion HttpResponse)
    (enc : list (string * string) → string) m :
  (∀ url, client_get url = Throw (AxiosError m None true)) →
  (∀ url payload, client_post url payload = Throw (AxiosError m None true)) →
  let report prefix :=
    Return (result_text ("Error: " +:+ prefix +:+ ": No response received")
              (Obj [("error", Str (prefix +:+ ": No response received"))]) true) in
  (∀ query language page per_page,
     Server.searchProducts client_get enc query language page per_page
     = report "Failed to fetch products") ∧
  (∀ orderIds, Server.getOrderStatus client_post orderIds
               = report "Failed to get order status") ∧
  (∀ filters, Server.getAllOrders client_get enc filters = report "Failed to get orders") ∧
  (∀ orderId, Server.cancelOrder client_post orderId = report "Failed to cancel order") ∧
  (∀ mode now cfg address reference isTest opts,
     nullish address = false →
     Server.placeOrder client_post mode now cfg address reference isTest opts
     = Return (result_text "Error: Failed to place order: No response received"
                 (Obj [("error", Obj [("data", Null)])]) true)).
Proof.
  intros Hget Hpost report. repeat split.
  - intros. rewrite (searchProducts_failure _ _ _ _ _ _ _ Hget).
    rewrite thrown_no_response by done. by rewrite report_message_result.
  - intros. unfold Server.getOrderStatus, getOrderStatus.
    rewrite request_result, Hpost. cbn [mbind completion_bind try_catch].
    rewrite thrown_no_response by done. by rewrite report_message_result.
  - intros. unfold Server.getAllOrders, getAllOrders.
    rewrite request_result, Hget. cbn [mbind completion_bind try_catch].
    rewrite thrown_no_response by done. by rewrite report_message_result.
  - intros. unfold Server.cancelOrder, cancelOrder.
    rewrite request_result, Hpost. cbn [mbind completion_bind try_catch].
    rewrite thrown_no_response by done. by rewrite report_message_result.
  - intros.
    rewrite (placeOrder_tool_failure _ _ _ _ _ _ _ _ (AxiosError m None true)) by done.
    rewrite thrown_no_response by done. by rewrite report_error_result.
Qed.

Lemma network_failure_results_witness :
  Server.cancelOrder (λ _ _, Throw (AxiosError "timeout of 1000ms exceeded" None true))
    (Str "o1")
  = Return (result_text "Error: Failed to cancel order: No response received"
              (Obj [("error", Str "Failed to cancel order: No response received")]) true) ∧
  Server.placeOrder (λ _ _, Throw (AxiosError "timeout of 1000ms exceeded" None true))
    "test" 1700000000000 sample_configuration sample_address (Str "MCP Test Order")
    (Bool true) Undefined
  = Return (result_text "Error: Failed to place order: No response received"
              (Obj [("error", Obj [("data", Null)])]) true).
Proof.
  destruct (network_failure_results
              (λ _, Throw (AxiosError "timeout of 1000ms exceeded" None true))
              (λ _ _, Throw (AxiosError "timeout of 1000ms exceeded" None true))
              plain_query "timeout of 1000ms exceeded" (λ _, eq_refl) (λ _ _, eq_refl))
    as (_ & _ & _ & Hcancel & Hplace).
  split; [apply Hcancel | by apply Hplace].
Defined.
Lemma has_code_app c l1 l2 : has_code c (l1 ++ l2) ↔ has_code c l1 ∨ has_code c l2.
Proof. unfold has_code. by rewrite map_app, elem_of_app. Qed.

Lemma has_code_default c c_mm l :
  has_code c (l ++ default_dimension c c_mm l) ∨ has_code c_mm (l ++ default_dimension c c_mm l).
Proof.
  rewrite !has_code_app. unfold default_dimension. case_bool_decide as H.
  - tauto.
  - left. right. unfold has_code. cbn. apply elem_of_cons. by left.
Qed.

Lemma with_default_dimensions_idempotent l :
  with_default_dimensions (with_default_dimensions l) = with_default_dimensions l.
Proof.
  unfold with_default_dimensions at 1.
  assert (default_dimension "width" "width_mm" (with_default_dimensions l) = []) as ->.
  { unfold default_dimension at 1. rewrite bool_decide_eq_true_2; [done|].
    unfold with_default_dimensions. rewrite app_assoc, !(has_code_app _ (_ ++ _)).
    destruct (has_code_default "width" "width_mm" l); tauto. }
  assert (default_dimension "height" "height_mm" (with_default_dimensions l) = []) as ->.
  { unfold default_dimension at 1. rewrite bool_decide_eq_true_2; [done|].
    unfold with_default_dimensions.
    rewrite !(has_code_app _ l), !has_code_app.
    destruct (has_code_default "height" "height_mm" l) as [H|H];
      apply has_code_app in H; tauto. }
  by rewrite !app_nil_r.
Qed.

(** X10.  The options of a built body are settled: [configureProduct]
    run again on the array it built, for any product, address and
    language, builds a body with the same options. *)
Theorem configureProduct_again productCode options address language σ :
  ∃ payload σ' r built,
    configureProduct_payload productCode options address language σ = (Return payload, σ') ∧
    σ' !! r = Some built ∧
    payload_options payload = Some (Arr (map option_value built)) ∧
    ∀ productCode' address' language',
      ∃ payload' σ'',
        configureProduct_payload productCode' (Some r) address' language' σ'
        = (Return payload', σ'') ∧
        payload_options payload' = Some (Arr (map option_value built)).
Proof.
  destruct (configureProduct_payload_run productCode options address language σ)
    as (σ0 & r & _ & _ & Hrun).
  eexists _, _, r, _. split; [exact Hrun|].
  split; [apply lookup_insert_eq|].
  split. { unfold configure_body. by destruct (truthy _). }
  intros productCode' address' language'.
  destruct (configureProduct_payload_run productCode' (Some r) address' language'
              (<[r := with_default_dimensions (input_options σ options)]> σ0))
    as (σ1 & r1 & _ & _ & Hrun').
  eexists _, _. split; [exact Hrun'|].
  unfold input_options at 1. rewrite lookup_total_insert_eq.
  rewrite with_default_dimensions_idempotent.
  unfold configure_body. by destruct (truthy _).
Qed.

(** X9.  The body [configureProduct] builds has the fields products and
    language, and deliveries exactly when a truthy address is given.
    products holds one product with the code as given and the options;
    the options are the caller's followed by at most the width and the
    height default, in this order; language is en when left out. *)
Theorem configureProduct_body productCode options address language σ :
  let input := input_options σ options in
  ∃ payload σ' extra,
    configureProduct_payload productCode options address language σ = (Return payload, σ') ∧
    payload_options payload = Some (Arr (map option_value (input ++ extra))) ∧
    extra `sublist_of` [mkOption "width" (Num 1000); mkOption "height" (Num 1000)] ∧
    keys payload
    = (["products"; "language"] ++ (if truthy address then ["deliveries"] else []))%list ∧
    own_prop "language" payload
    = Some (match language with Undefined => Str "en" | _ => language end) ∧
    own_prop "deliveries" payload
    = (if truthy address then Some (Arr [Obj [("address", address)]]) else None) ∧
    (∃ product, own_prop "products" payload = Some (Arr [product]) ∧
                own_prop "code" product = Some productCode ∧
                keys product = ["code"; "options"]).
Proof.
  intros input.
  destruct (configureProduct_payload_run productCode options address language σ)
    as (σ0 & r & _ & _ & Hrun).
  eexists _, _, _. split; [exact Hrun|].
  unfold configure_body, payload_options, own_prop, keys.
  assert (truthy (match address with Undefined => Null | _ => address end) = truthy address)
    as -> by (by destruct address).
  split. { destruct (truthy address); reflexivity. }
  split.
  { unfold default_dimension.
    do 2 case_bool_decide;
      repeat first [apply sublist_nil | apply sublist_skip | apply sublist_cons]. }
  destruct (truthy address); cbn; eauto 10.
Qed.

Lemma M_try_catch_lift_state {A} (body : M A) (h : JsError → completion A) σ :
  (Server.M_try_catch body (λ e, lift (h e)) σ).2 = (body σ).2.
Proof. unfold Server.M_try_catch, lift. by destruct (body σ) as [[a|e] σ']. Qed.

Lemma bind_lift_state {A B} (m : M A) (f : A → completion B) σ :
  ((x ← m; lift (f x)) σ).2 = (m σ).2.
Proof. unfold mbind, M_bind, lift. by destruct (m σ) as [[a|e] σ']. Qed.

Lemma bind_ret_run {A B} (a : A) (f : A → M B) σ : (x ← mret a; f x) σ = f a σ.
Proof. reflexivity. Qed.

Lemma bind_alloc_run {B} l (f : positive → M B) σ :
  (x ← alloc l; f x) σ = f (fresh (dom σ)) (<[fresh (dom σ) := l]> σ).
Proof. reflexivity. Qed.

(** X12.  The configureProduct tool leaves every array of the store as
    it was, whether its options argument is given or left out and whether
    the upstream answers or fails. *)
Theorem configureProduct_tool_keeps_arrays
    (client_post : string → JsValue → completion HttpResponse)
    productCode options address language σ r elems :
  σ !! r = Some elems →
  (Server.configureProduct client_post productCode options address language σ).2 !! r
  = Some elems.
Proof.
  intros Hr.
  assert (r ∈ dom σ) as Hdom by (apply elem_of_dom; eauto).
  assert (∀ σ1 r1, (∀ r0, r0 ∈ dom σ → σ1 !! r0 = σ !! r0) →
            (configureProduct_payload productCode (Some r1) address language σ1).2 !! r
            = Some elems) as H.
  { intros σ1 r1 Hσ1.
    destruct (configureProduct_payload_run productCode (Some r1) address language σ1)
      as (σ0 & r' & Hσ0 & Hr' & Hrun).
    rewrite Hrun. cbn [snd].
    assert (r ∈ dom σ1) as Hdom1 by (apply elem_of_dom; rewrite Hσ1 by done; eauto).
    rewrite lookup_insert_ne.
    - by rewrite Hσ0, Hσ1.
    - intros ->. apply Hr'. apply elem_of_dom. rewrite Hσ0, Hσ1; eauto. }
  unfold Server.configureProduct. rewrite M_try_catch_lift_state.
  destruct options as [r1|].
  - rewrite bind_ret_run, bind_lift_state. unfold configureProduct.
    rewrite bind_lift_state. by apply H.
  - rewrite bind_alloc_run, bind_lift_state. unfold configureProduct.
    rewrite bind_lift_state. apply H.
    intros r0 Hr0. rewrite lookup_insert_ne; [done|].
    intros <-. by apply is_fresh in Hr0.
Qed.

Lemma configureProduct_tool_keeps_arrays_witness :
  (Server.configureProduct (λ _ _, Throw unauthorized) (Str "airtex")
     (Some 1%positive) Undefined Undefined
     {[ 1%positive := [mkOption "amount" (Str "1")] ]}).2 !! 1%positive
  = Some [mkOption "amount" (Str "1")].
Proof.
  apply configureProduct_tool_keeps_arrays. reflexivity.
Defined.

Lemma js_or_idempotent a b : js_or (js_or a b) b = js_or a b.
Proof. unfold js_or. destruct (truthy a) eqn:Ha; [by rewrite Ha|]. by destruct (truthy b). Qed.

Lemma getProducts_falsy_query (client_get : string → completion HttpResponse)
    (enc : list (string * string) → string) query options :
  truthy query = false →
  getProducts client_get enc query options = getProducts client_get enc Undefined options.
Proof.
  intros Hq. unfold getProducts. cbv zeta.
  assert (truthy (match query with Undefined => Str "" | _ => query end) = false) as ->
    by (by destruct query).
  reflexivity.
Qed.

(** X7.  The searchProducts tool treats a falsy page as page 1, a falsy
    per_page as 20 and a falsy query as no query, and it ignores its
    language argument. *)
Theorem searchProducts_defaults (client_get : string → completion HttpResponse)
    (enc : list (string * string) → string) query language language' page per_page :
  Server.searchProducts client_get enc query language page per_page
  = Server.searchProducts client_get enc
      (if truthy query then query else Undefined) language'
      (js_or page (Num 1)) (js_or per_page (Num 20)).
Proof.
  unfold Server.searchProducts. rewrite !js_or_idempotent.
  destruct (truthy query) eqn:Hq; [done|].
  by rewrite (getProducts_falsy_query _ _ query) by done.
Qed.

(** X6.  An upstream answer whose body is null or undefined makes the
    search fail: [getProducts] throws an error with the prefix Failed to
    fetch products and data null, and the tool returns an error result. *)
Theorem getProducts_null_body (client_get : string → completion HttpResponse)
    (enc : list (string * string) → string) query language page per_page options response :
  (∀ url, client_get url = Return response) →
  nullish (body response) = true →
  ∃ text,
    (options ≠ Null →
     getProducts client_get enc query options
     = Throw (PlainError ("Failed to fetch products: " +:+ text) Null)) ∧
    Server.searchProducts client_get enc query language page per_page
    = Return (result_text ("Error: Failed to fetch products: " +:+ text)
                (Obj [("error", Str ("Failed to fetch products: " +:+ text))]) true).
Proof.
  intros Hget Hb.
  exists (error_message (TypeError_read (body response) "data")).
  assert (∀ options, options ≠ Null →
            getProducts client_get enc query options
            = Throw (PlainError ("Failed to fetch products: " +:+
                                 error_message (TypeError_read (body response) "data")) Null))
    as H.
  { intros o Ho.
    destruct (getProducts_outcome client_get enc query o) as [url ->].
    { by destruct o. }
    rewrite Hget, Hb. unfold TypeError_read. by rewrite thrown_plain. }
  split; [apply H|].
  unfold Server.searchProducts. rewrite H by done.
  cbn [mbind completion_bind try_catch]. by rewrite report_message_result.
Qed.

Lemma getProducts_null_body_witness :
  ∃ text,
    Server.searchProducts (λ _, Return (mkResponse 200 Null)) plain_query
      Undefined Undefined Undefined Undefined
    = Return (result_text ("Error: Failed to fetch products: " +:+ text)
                (Obj [("error", Str ("Failed to fetch products: " +:+ text))]) true).
Proof.
  destruct (getProducts_null_body (λ _, Return (mkResponse 200 Null)) plain_query
              Undefined Undefined Undefined Undefined Undefined (mkResponse 200 Null)
              (λ _, eq_refl) eq_refl) as (text & _ & Htool).
  exists text. exact Htool.
Defined.

Lemma products_length_array data l :
  prop data "data" = Arr l →
  convertible (products_length data) = true ∧
  display (js_or (products_length data) (Num 0)) = pretty (Z.of_nat (length l)) ∧
  reshaped data = Obj [("products", Arr l); ("meta", js_or (prop data "meta") (Obj []))].
Proof.
  intros H. unfold products_length, reshaped. rewrite H.
  change (js_or (Arr l) (Arr [])) with (Arr l).
  split; [done|]. split; [|done]. by destruct l.
Qed.

Lemma products_length_falsy data :
  truthy (prop data "data") = false →
  convertible (products_length data) = true ∧
  display (js_or (products_length data) (Num 0)) = "0" ∧
  reshaped data = Obj [("products", Arr []); ("meta", js_or (prop data "meta") (Obj []))].
Proof.
  intros H. unfold products_length, reshaped.
  assert (js_or (prop data "data") (Arr []) = Arr []) as ->.
  { unfold js_or. by rewrite H. }
  done.
Qed.

(** X8.  The message of a successful search counts the products of the
    answer: the length of the upstream's list, and 0 when the upstream
    has no list; the data then holds the empty list. *)
Theorem searchProducts_count (client_get : string → completion HttpResponse)
    (enc : list (string * string) → string) query language page per_page response :
  (∀ url, client_get url = Return response) →
  nullish (body response) = false →
  (∀ l, prop (body response) "data" = Arr l →
     Server.searchProducts client_get enc query language page per_page
     = Return (result_text ("Found " +:+ pretty (Z.of_nat (length l)) +:+ " products")
                 (Obj [("products", Arr l);
                       ("meta", js_or (prop (body response) "meta") (Obj []))])
                 false)) ∧
  (truthy (prop (body response) "data") = false →
     Server.searchProducts client_get enc query language page per_page
     = Return (result_text "Found 0 products"
                 (Obj [("products", Arr []);
                       ("meta", js_or (prop (body response) "meta") (Obj []))])
                 false)).
Proof.
  intros Hget Hb.
  assert (convertible (products_length (body response)) = true →
          Server.searchProducts client_get enc query language page per_page
          = Return (result_text
                      ("Found " +:+
                       display (js_or (products_length (body response)) (Num 0)) +:+
                       " products")
                      (reshaped (body response)) false)) as H.
  { intros Hc. apply searchProducts_found; [|done]. by apply getProducts_run. }
  split.
  - intros l Hl. destruct (products_length_array _ _ Hl) as (Hc & Ht & Hd).
    by rewrite (H Hc), Ht, Hd.
  - intros Hd. destruct (products_length_falsy _ Hd) as (Hc & Ht & Hr).
    by rewrite (H Hc), Ht, Hr.
Qed.

Lemma searchProducts_count_witness :
  Server.searchProducts (λ _, Return stub_response) plain_query
    (Str "banner") Undefined Undefined Undefined
  = Return (result_text "Found 1 products" stub_result false).
Proof.
  exact (proj1 (searchProducts_count (λ _, Return stub_response) plain_query
                  (Str "banner") Undefined Undefined Undefined stub_response
                  (λ _, eq_refl) eq_refl)
           [Obj [("code", Str "x")]] eq_refl).
Defined.

Lemma configureProduct_run (client_post : string → JsValue → completion HttpResponse)
    productCode options address language σ :
  ∃ σ',
    configureProduct client_post productCode options address language σ
    = (match client_post "/products/configure"
               (configure_body productCode address language
                  (with_default_dimensions (input_options σ options))) with
       | Return response => Return (body response)
       | Throw e0 => Throw (thrown "Failed to configure product" e0)
       end, σ').
Proof.
  destruct (configureProduct_payload_run productCode options address language σ)
    as (σ0 & r & _ & _ & Hrun).
  unfold configureProduct, mbind, M_bind. rewrite Hrun. unfold lift.
  rewrite request_result. eauto.
Qed.

Lemma M_try_catch_ret_run {A B} (a : A) (f : A → M B) h σ :
  Server.M_try_catch (x ← mret a; f x) h σ = Server.M_try_catch (f a) h σ.
Proof. reflexivity. Qed.

Lemma M_try_catch_alloc_run {B} l (f : positive → M B) h σ :
  Server.M_try_catch (x ← alloc l; f x) h σ
  = Server.M_try_catch (f (fresh (dom σ))) h (<[fresh (dom σ) := l]> σ).
Proof. reflexivity. Qed.

(** X11.  The configureProduct tool posts the built body to
    /products/configure.  When the upstream answers, the result is no
    error and its data is the answer's body, whatever that is.  When the
    request fails, the result is an error: its message starts with Error:
    Failed to configure product when the values of the failure that are
    shown have a string form, and it reports the error of the conversion
    when one has none. *)
Theorem configureProduct_tool (client_post : string → JsValue → completion HttpResponse)
    code options address language σ :
  let payload :=
    configure_body (Str code) address language
      (with_default_dimensions (input_options σ options)) in
  ∃ r σ',
    Server.configureProduct client_post (Str code) options address language σ
    = (Return r, σ') ∧
    (∀ response,
       client_post "/products/configure" payload = Return response →
       r = result_text ("Product " +:+ code +:+ " configured successfully")
             (body response) false) ∧
    (∀ e0, client_post "/products/configure" payload = Throw e0 →
       (showable e0 = true →
        ∃ text,
          r = result_text ("Error: Failed to configure product" +:+ text)
                (Obj [("error", Str ("Failed to configure product" +:+ text))]) true) ∧
       (showable e0 = false →
        r = result_text "Error: Cannot convert object to primitive value"
              (Obj [("error", Str "Cannot convert object to primitive value")]) true)).
Proof.
  intros payload.
  assert (∀ σ1 r1,
            input_options σ1 (Some r1) = input_options σ options →
            ∃ r σ',
              (Server.M_try_catch
                 (result ← configureProduct client_post (Str code) (Some r1) address language;
                  lift (Server.formatResult
                          ("Product " +:+ display (Str code) +:+ " configured successfully")
                          result false))
                 (λ error, lift (Server.report_message error)) σ1) = (Return r, σ') ∧
              (∀ response,
                 client_post "/products/configure" payload = Return response →
                 r = result_text ("Product " +:+ code +:+ " configured successfully")
                       (body response) false) ∧
              (∀ e0, client_post "/products/configure" payload = Throw e0 →
                 (showable e0 = true →
                  ∃ text,
                    r = result_text ("Error: Failed to configure product" +:+ text)
                          (Obj [("error", Str ("Failed to configure product" +:+ text))])
                          true) ∧
                 (showable e0 = false →
                  r = result_text "Error: Cannot convert object to primitive value"
                        (Obj [("error", Str "Cannot convert object to primitive value")])
                        true))) as H.
  { intros σ1 r1 Hin.
    destruct (configureProduct_run client_post (Str code) (Some r1) address language σ1)
      as [σ' Hc].
    rewrite Hin in Hc. fold payload in Hc.
    unfold Server.M_try_catch, mbind, M_bind. rewrite Hc.
    destruct (client_post "/products/configure" payload) as [response|e0].
    - unfold lift. rewrite formatResult_success.
      eexists _, _. split; [reflexivity|]. split; [by intros ? [= <-]|done].
    - unfold lift. rewrite report_message_result.
      eexists _, _. split; [reflexivity|]. split; [done|]. intros ? [= <-].
      destruct (thrown_cases "Failed to configure product" e0 ltac:(discriminate))
        as [Hyes Hno].
      split; intros Hs.
      + destruct (Hyes Hs) as [rest ->]. by exists rest.
      + by rewrite (Hno Hs). }
  unfold Server.configureProduct. destruct options as [r1|].
  - rewrite M_try_catch_ret_run. apply (H σ r1). reflexivity.
  - rewrite M_try_catch_alloc_run. apply (H (<[fresh (dom σ) := []]> σ) (fresh (dom σ))).
    unfold input_options. apply lookup_total_insert_eq.
Qed.

Lemma configureProduct_tool_witness :
  ∃ σ',
    Server.configureProduct
      (λ _ _, Return (mkResponse 200 (Obj [("products", Arr [])]))) (Str "airtex")
      None Undefined Undefined ∅
    = (Return (result_text "Product airtex configured successfully"
                 (Obj [("products", Arr [])]) false), σ').
Proof.
  destruct (configureProduct_tool
              (λ _ _, Return (mkResponse 200 (Obj [("products", Arr [])]))) "airtex"
              None Undefined Undefined ∅) as (r & σ' & Hrun & Hok & _).
  exists σ'. rewrite Hrun. by rewrite (Hok _ eq_refl).
Defined.

Lemma order_id_string data s :
  prop (prop data "order") "id" = Str s → s ≠ "" → order_id data = Str s.
Proof.
  intros Hs Hne. unfold order_id.
  assert (nullish (prop data "order") = false) as Ho.
  { destruct (prop data "order"); try done; by unfold prop in Hs. }
  rewrite get_opt_prop, Hs by done.
  unfold js_or. cbn. by rewrite eqb_decide, bool_decide_eq_false_2.
Qed.

Lemma order_id_missing data :
  nullish (prop data "order") = true → order_id data = Str "ID not available".
Proof. unfold order_id. by destruct (prop data "order"). Qed.

(** X17.  When the body of an order under a reference that is a string
    builds, and the upstream answers with a body that is neither null nor
    undefined, the placeOrder tool reports success exactly when the id it
    shows has a string form.  The result
    then has that body as data, and its message shows the id of the
    answer's order when that is a string that is not empty, and ID not
    available when the answer has no order.  When the id has no string
    form, the result reports the error of the conversion. *)
Theorem placeOrder_tool_success (client_post : string → JsValue → completion HttpResponse)
    mode now cfg address (reference : string) isTest opts payload response :
  placeOrder_payload mode now cfg address (Str reference) isTest (js_or opts (Obj []))
  = Return payload →
  client_post "/order" payload = Return response →
  nullish (body response) = false →
  ∃ r,
    Server.placeOrder client_post mode now cfg address (Str reference) isTest opts
    = Return r ∧
    (Server.isError r = false ↔ convertible (order_id (body response)) = true) ∧
    (convertible (order_id (body response)) = true →
     ∃ message, r = result_text message (body response) false) ∧
    (∀ s, prop (prop (body response) "order") "id" = Str s → s ≠ "" →
       r = result_text ("Order placed successfully: " +:+ s) (body response) false) ∧
    (nullish (prop (body response) "order") = true →
     r = result_text "Order placed successfully: ID not available" (body response) false) ∧
    (convertible (order_id (body response)) = false →
     r = result_text "Error: Cannot convert object to primitive value"
           (Obj [("error", Obj [])]) true).
Proof.
  intros Hp Hpost Hb.
  assert (Server.placeOrder client_post mode now cfg address (Str reference) isTest opts
          = if convertible (order_id (body response))
            then Return (result_text
                           ("Order placed successfully: " +:+ display (order_id (body response)))
                           (body response) false)
            else Server.report_error TypeError_convert) as ->.
  { unfold Server.placeOrder, placeOrder. rewrite Hp. run_binds. rewrite Hpost.
    cbv beta iota. cbn [try_catch]. rewrite get_not_nullish by done.
    fold (order_id (body response)). unfold ToString.
    by destruct (convertible (order_id (body response))). }
  destruct (convertible (order_id (body response))) eqn:Hc.
  - eexists. split; [done|]. split; [done|]. split; [eauto|].
    split; [|split; [|done]].
    + intros s Hs Hne. by rewrite (order_id_string _ _ Hs Hne).
    + intros Ho. by rewrite (order_id_missing _ Ho).
  - rewrite report_error_conversion.
    eexists. split; [done|]. split; [done|]. split; [done|].
    split; [|split; [|done]].
    + intros s Hs Hne. by rewrite (order_id_string _ _ Hs Hne) in Hc.
    + intros Ho. by rewrite (order_id_missing _ Ho) in Hc.
Qed.

Lemma placeOrder_tool_success_witness :
  (∃ payload,
     placeOrder_payload "test" 1700000000000 sample_configuration sample_address
       (Str "MCP Test Order") (Bool true) (Obj []) = Return payload ∧
     Server.placeOrder
       (λ _ _, Return (mkResponse 200 (Obj [("order", Obj [("id", Str "12345")])])))
       "test" 1700000000000 sample_configuration sample_address (Str "MCP Test Order")
       (Bool true) Undefined
     = Return (result_text "Order placed successfully: 12345"
                 (Obj [("order", Obj [("id", Str "12345")])]) false)) ∧
  Server.placeOrder
    (λ _ _, Return (mkResponse 200 (Obj [("order", Obj [("id", Obj [("toString", Num 1)])])])))
    "test" 1700000000000 sample_configuration sample_address (Str "MCP Test Order")
    (Bool true) Undefined
  = Return (result_text "Error: Cannot convert object to primitive value"
              (Obj [("error", Obj [])]) true).
Proof.
  split.
  - eexists. split; [reflexivity|].
    destruct (placeOrder_tool_success
                (λ _ _, Return (mkResponse 200 (Obj [("order", Obj [("id", Str "12345")])])))
                "test" 1700000000000 sample_configuration sample_address
                "MCP Test Order" (Bool true) Undefined _
                (mkResponse 200 (Obj [("order", Obj [("id", Str "12345")])]))
                eq_refl eq_refl eq_refl) as (r & Hrun & _ & _ & Hid & _).
    rewrite Hrun. by rewrite (Hid "12345" eq_refl ltac:(discriminate)).
  - destruct (placeOrder_tool_success
                (λ _ _, Return (mkResponse 200
                                  (Obj [("order", Obj [("id", Obj [("toString", Num 1)])])])))
                "test" 1700000000000 sample_configuration sample_address
                "MCP Test Order" (Bool true) Undefined _
                (mkResponse 200 (Obj [("order", Obj [("id", Obj [("toString", Num 1)])])]))
                eq_refl eq_refl eq_refl) as (r & Hrun & _ & _ & _ & _ & Hbad).
    rewrite Hrun. by rewrite (Hbad eq_refl).
Defined.
